(** * BADWALL: shallow embedding of the statistics aggregator
    (src/utils/statistics.py) and of the moderation middleware
    (src/middlewares/profanity_middleware.py). *)

From Stdlib Require Import ZArith QArith List String Bool Lia.
Import ListNotations.
Open Scope Z_scope.

(** ** src/utils/statistics.py *)

Module Stats.

(** The per-chat counters created by the [defaultdict] factory. *)
Record chat_stats := mk_chat_stats {
  checked : nat;
  deleted : nat;
  cs_deleted_forbidden_chars : nat;
  cs_deleted_urls : nat;
  cs_deleted_profanity : nat;
  banned : nat
}.

Definition empty_chat_stats : chat_stats := mk_chat_stats 0 0 0 0 0 0.

(** [by_chat] is a [defaultdict] keyed by chat id: an association list in
    insertion order (the order [get_stats_text] iterates in). *)
Definition by_chat_t := list (Z * chat_stats).

(** [self.by_chat[chat_id][...] += 1]: the entry is updated in place when
    the key is present, otherwise the factory value is appended and updated. *)
Fixpoint by_chat_update (k : Z) (f : chat_stats -> chat_stats) (m : by_chat_t)
  : by_chat_t :=
  match m with
  | [] => [(k, f empty_chat_stats)]
  | (k', v) :: m' =>
      if Z.eqb k k' then (k', f v) :: m' else (k', v) :: by_chat_update k f m'
  end.

(** [self.by_chat[chat_id]] read from the [defaultdict]: the factory value
    for an absent key. *)
Fixpoint by_chat_get (k : Z) (m : by_chat_t) : chat_stats :=
  match m with
  | [] => empty_chat_stats
  | (k', v) :: m' => if Z.eqb k k' then v else by_chat_get k m'
  end.

Record Statistics := mk_statistics {
  total_checked : nat;
  total_deleted : nat;
  deleted_forbidden_chars : nat;
  deleted_urls : nat;
  deleted_profanity : nat;
  total_banned : nat;
  by_chat : by_chat_t;
  start_date : Z   (** [datetime.now()] at the last reset *)
}.

(** [reset]; [now] is the value of [datetime.now()]. *)
Definition reset (now : Z) : Statistics :=
  mk_statistics 0 0 0 0 0 0 [] now.

Definition cs_inc_checked (c : chat_stats) : chat_stats :=
  mk_chat_stats (S (checked c)) (deleted c) (cs_deleted_forbidden_chars c)
    (cs_deleted_urls c) (cs_deleted_profanity c) (banned c).
Definition cs_inc_deleted (c : chat_stats) : chat_stats :=
  mk_chat_stats (checked c) (S (deleted c)) (cs_deleted_forbidden_chars c)
    (cs_deleted_urls c) (cs_deleted_profanity c) (banned c).
Definition cs_inc_forbidden (c : chat_stats) : chat_stats :=
  mk_chat_stats (checked c) (deleted c) (S (cs_deleted_forbidden_chars c))
    (cs_deleted_urls c) (cs_deleted_profanity c) (banned c).
Definition cs_inc_urls (c : chat_stats) : chat_stats :=
  mk_chat_stats (checked c) (deleted c) (cs_deleted_forbidden_chars c)
    (S (cs_deleted_urls c)) (cs_deleted_profanity c) (banned c).
Definition cs_inc_profanity (c : chat_stats) : chat_stats :=
  mk_chat_stats (checked c) (deleted c) (cs_deleted_forbidden_chars c)
    (cs_deleted_urls c) (S (cs_deleted_profanity c)) (banned c).
Definition cs_inc_banned (c : chat_stats) : chat_stats :=
  mk_chat_stats (checked c) (deleted c) (cs_deleted_forbidden_chars c)
    (cs_deleted_urls c) (cs_deleted_profanity c) (S (banned c)).

Definition add_checked (chat_id : Z) (s : Statistics) : Statistics :=
  mk_statistics (S (total_checked s)) (total_deleted s)
    (deleted_forbidden_chars s) (deleted_urls s) (deleted_profanity s)
    (total_banned s) (by_chat_update chat_id cs_inc_checked (by_chat s))
    (start_date s).

(** [add_deleted(chat_id, deletion_type="unknown")]: the totals first, then
    the category selected by the [if]/[elif] chain on the string. *)
Definition add_deleted (chat_id : Z) (deletion_type : string) (s : Statistics)
  : Statistics :=
  let s1 := mk_statistics (total_checked s) (S (total_deleted s))
      (deleted_forbidden_chars s) (deleted_urls s) (deleted_profanity s)
      (total_banned s) (by_chat_update chat_id cs_inc_deleted (by_chat s))
      (start_date s) in
  if String.eqb deletion_type "forbidden_chars" then
    mk_statistics (total_checked s1) (total_deleted s1)
      (S (deleted_forbidden_chars s1)) (deleted_urls s1) (deleted_profanity s1)
      (total_banned s1) (by_chat_update chat_id cs_inc_forbidden (by_chat s1))
      (start_date s1)
  else if String.eqb deletion_type "urls" then
    mk_statistics (total_checked s1) (total_deleted s1)
      (deleted_forbidden_chars s1) (S (deleted_urls s1)) (deleted_profanity s1)
      (total_banned s1) (by_chat_update chat_id cs_inc_urls (by_chat s1))
      (start_date s1)
  else if String.eqb deletion_type "profanity" then
    mk_statistics (total_checked s1) (total_deleted s1)
      (deleted_forbidden_chars s1) (deleted_urls s1) (S (deleted_profanity s1))
      (total_banned s1) (by_chat_update chat_id cs_inc_profanity (by_chat s1))
      (start_date s1)
  else s1.

Definition add_banned (chat_id : Z) (s : Statistics) : Statistics :=
  mk_statistics (total_checked s) (total_deleted s)
    (deleted_forbidden_chars s) (deleted_urls s) (deleted_profanity s)
    (S (total_banned s)) (by_chat_update chat_id cs_inc_banned (by_chat s))
    (start_date s).

(** Sum of one per-chat field over all chats. *)
Definition sum_chats (f : chat_stats -> nat) (m : by_chat_t) : nat :=
  fold_right (fun kv acc => f (snd kv) + acc)%nat 0%nat m.

End Stats.

Module Report.
Import Stats.

(** [get_stats_text], keeping the figures it prints: the empty-period text
    when [total_checked == 0], otherwise the global figures (the per-chat
    section is rendered from [by_chat]). *)
Inductive stats_text :=
  | NoActivity
  | Figures (period_start checked deleted forbidden urls profanity banned : Z)
            (per_chat : by_chat_t).

Definition get_stats_text (s : Statistics) : stats_text :=
  if Nat.eqb (total_checked s) 0 then NoActivity
  else Figures (start_date s) (Z.of_nat (total_checked s))
         (Z.of_nat (total_deleted s)) (Z.of_nat (deleted_forbidden_chars s))
         (Z.of_nat (deleted_urls s)) (Z.of_nat (deleted_profanity s))
         (Z.of_nat (total_banned s)) (by_chat s).

(** [send_daily_stats] (src/bot.py): the text is built, sent to every admin
    (each send failure caught on its own), then [statistics.reset()] runs.
    [sent admin] tells whether [bot.send_message] succeeded for that admin;
    the result is the list of deliveries, and the statistics afterwards. *)
Definition send_daily_stats (admin_ids : list Z) (sent : Z -> bool) (now : Z)
  (s : Statistics) : list (Z * stats_text) * Statistics :=
  let txt := get_stats_text s in
  (map (fun a => (a, txt)) (filter sent admin_ids), reset now).

End Report.

(** ** src/middlewares/profanity_middleware.py *)

Module Middleware.
Import Stats.

(** Python strings as lists of Unicode code points. *)
Definition text := list Z.

Definition in_range (lo hi c : Z) : bool := (lo <=? c) && (c <=? hi).

(** [re.search(r'[a-zA-Z]', text)] *)
Definition is_latin (c : Z) : bool := in_range 65 90 c || in_range 97 122 c.

(** [forbidden_special_chars_pattern]: [[@#$%^&*+=|\\/<>~`]] *)
Definition forbidden_special_chars : list Z :=
  [64; 35; 36; 37; 94; 38; 42; 43; 61; 124; 92; 47; 60; 62; 126; 96].

(** The allowed punctuation string of [_has_forbidden_chars]: space, the
    ASCII marks . , ! ? : ; - ( ) [ ] { } double quote, single quote, and
    U+00AB, U+00BB, U+2014, U+2026. *)
Definition allowed_punctuation : list Z :=
  [32; 46; 44; 33; 63; 58; 59; 45; 40; 41; 91; 93; 123; 125; 34; 39;
   171; 187; 8212; 8230].

Definition mem (c : Z) (l : list Z) : bool := existsb (Z.eqb c) l.

(** [_is_emoji]: the chain of code-point ranges. *)
Definition is_emoji (c : Z) : bool :=
  in_range 127744 129535 c      (* 0x1F300 - 0x1F9FF *)
  || in_range 9728 9983 c       (* 0x2600 - 0x26FF *)
  || in_range 9984 10175 c      (* 0x2700 - 0x27BF *)
  || in_range 65024 65039 c     (* 0xFE00 - 0xFE0F *)
  || in_range 127995 127999 c   (* 0x1F3FB - 0x1F3FF *)
  || in_range 127462 127487 c   (* 0x1F1E6 - 0x1F1FF *)
  || in_range 129280 129535 c   (* 0x1F900 - 0x1F9FF *)
  || in_range 128640 128767 c   (* 0x1F680 - 0x1F6FF *)
  || in_range 129536 129791 c.  (* 0x1FA00 - 0x1FAFF *)

(** Message entity types the middleware distinguishes. *)
Inductive entity_type := URL | TEXT_LINK | MENTION | BOLD | OTHER_ENTITY.

Definition is_link_entity (e : entity_type) : bool :=
  match e with URL | TEXT_LINK => true | _ => false end.

Inductive chat_type := PRIVATE | GROUP | SUPERGROUP | CHANNEL.

Inductive member_status :=
  CREATOR | ADMINISTRATOR | MEMBER | RESTRICTED | LEFT | KICKED.

Record user := mk_user {
  user_id : Z;
  username : option string;
  first_name : option string
}.

(** The fields of [aiogram.types.Message] the middleware reads; [sender_chat]
    is the [sender_chat.id] of a message posted on behalf of a chat. *)
Record message := mk_message {
  chat_id : Z;
  chat_kind : chat_type;
  from_user : option user;
  sender_chat : option Z;
  msg_text : option text;
  caption : option text;
  entities : list entity_type;
  caption_entities : list entity_type;
  voice : option string   (** [voice.file_id] *)
}.

(** Python truthiness of an optional string. *)
Definition truthy (o : option text) : bool :=
  match o with Some (_ :: _) => true | _ => false end.

(** [message.text or message.caption or ""] *)
Definition text_or_caption (m : message) : text :=
  match msg_text m with
  | Some (x :: xs) => x :: xs
  | _ => match caption m with Some c => c | None => [] end
  end.

(** Python's [max] over the list returned by [predict_proba]; [None] is the
    [ValueError] raised on an empty list. *)
Definition py_max (l : list Q) : option Q :=
  match l with
  | [] => None
  | x :: xs =>
      Some (fold_left (fun a b => if Qle_bool b a then a else b) xs x)
  end.

(** The enforcement calls made against the Telegram API: [event.delete],
    [bot.ban_chat_member] and the [send_message] of each admin
    notification. The lookups [get_chat_member], [get_file] and
    [download_file] change nothing and are not recorded. *)
Inductive action :=
  | DeleteMessage (chat : Z)
  | BanChatMember (chat user : Z)
  | NotifyAdmin (admin : Z).

(** Answers of the outside world for one update: [bot] is
    [data.get("bot")] being set; [member_lookup] the status returned by
    [get_chat_member] ([None] when it raised); [transcription] the value
    returned by [_transcribe_voice]; [delete_ok] and [ban_ok] whether
    [event.delete()] and [bot.ban_chat_member] succeeded. *)
Record env := mk_env {
  bot : bool;
  member_lookup : option member_status;
  transcription : option text;
  delete_ok : bool;
  ban_ok : bool
}.

(** What [__call__] does with the update: [Passed] is
    [return await handler(event, data)], [Dropped] a bare [return],
    [Raised] an exception escaping the middleware. *)
Inductive outcome := Passed | Dropped | Raised.

(** The mutable world of one call: the shared [Statistics] object and the
    API calls issued so far. *)
Record world := mk_world { w_stats : Statistics; w_log : list action }.

Definition M (A : Type) := world -> A * world.
Definition ret {A} (a : A) : M A := fun w => (a, w).
Definition bind {A B} (c : M A) (k : A -> M B) : M B :=
  fun w => let (a, w') := c w in k a w'.
Notation "x <- c ;; k" := (bind c (fun x => k))
  (at level 61, c at next level, right associativity).
Notation "c ;;; k" := (bind c (fun _ => k))
  (at level 61, right associativity).

Definition stat (f : Statistics -> Statistics) : M unit :=
  fun w => (tt, mk_world (f (w_stats w)) (w_log w)).
Definition emit (a : action) : M unit :=
  fun w => (tt, mk_world (w_stats w) (w_log w ++ [a])).

End Middleware.

Module Pipeline.
Import Stats Middleware.

Section Config.

(** [config.py]: [ALLOWED_CHAT_IDS], [ADMIN_IDS], [PROFANITY_THRESHOLD]. *)
Variable ALLOWED_CHAT_IDS : list Z.
Variable ADMIN_IDS : list Z.
Variable PROFANITY_THRESHOLD : Q.
(** [SwearingCheck().predict_proba]: the model's list of probabilities. *)
Variable predict_proba : text -> list Q.
(** Python's Unicode predicates: [str.isdigit] (in [_has_forbidden_chars]),
    [\s] and [\w] of the [re] module (in [url_pattern]). *)
Variable isdigit : Z -> bool.
Variable isspace : Z -> bool.
Variable isword : Z -> bool.

(** [_has_forbidden_chars]: Latin letters, then the special-character
    pattern, then the per-character loop. *)
Definition char_allowed (c : Z) : bool :=
  in_range 1024 1279 c || Z.eqb c 1105 || Z.eqb c 1025
  || isdigit c || mem c allowed_punctuation || is_emoji c.

Definition _has_forbidden_chars (t : text) : bool :=
  match t with
  | [] => false
  | _ =>
      if existsb is_latin t then true
      else if existsb (fun c => mem c forbidden_special_chars) t then true
      else existsb (fun c => negb (char_allowed c)) t
  end.

(** [url_pattern] = [(?i)\b(?:https?://|www\.|t\.me/|telegram\.me/)]
    followed by one or more characters that are neither whitespace nor one
    of the excluded marks listed in [url_tail_char].
    Under [re.IGNORECASE] a pattern letter matches its ASCII upper case, and
    [s] also matches U+017F. *)
Definition ci_char (p c : Z) : bool :=
  Z.eqb c p
  || (in_range 97 122 p && Z.eqb c (p - 32))
  || (Z.eqb p 115 && Z.eqb c 383).

Fixpoint match_prefix (p s : list Z) : option (list Z) :=
  match p, s with
  | [], _ => Some s
  | x :: p', c :: s' => if ci_char x c then match_prefix p' s' else None
  | _ :: _, [] => None
  end.

(** http://, https://, www., t.me/, telegram.me/ *)
Definition url_prefixes : list (list Z) :=
  [[104;116;116;112;58;47;47]; [104;116;116;112;115;58;47;47];
   [119;119;119;46]; [116;46;109;101;47];
   [116;101;108;101;103;114;97;109;46;109;101;47]].

Definition url_tail_char (c : Z) : bool :=
  negb (isspace c || mem c [60; 62; 34; 123; 125; 124; 92; 94; 96; 91; 93]).

(** A match starting at the head of [s], [prev_word] telling whether the
    preceding character is a word character (for [\b]; every alternative
    starts with a word character). *)
Definition url_match_at (prev_word : bool) (s : list Z) : bool :=
  negb prev_word
  && existsb (fun p => match match_prefix p s with
                       | Some (c :: _) => url_tail_char c
                       | _ => false
                       end) url_prefixes.

Fixpoint url_search (prev_word : bool) (s : list Z) : bool :=
  url_match_at prev_word s
  || match s with [] => false | c :: s' => url_search (isword c) s' end.

(** [_has_urls] *)
Definition _has_urls (m : message) : bool :=
  if existsb is_link_entity (entities m) then true
  else if existsb is_link_entity (caption_entities m) then true
  else
    let t := text_or_caption m in
    match t with [] => false | _ => url_search false t end.

(** [_send_ban_notification]: one [send_message] per admin, each failure
    caught on its own. *)
Definition _send_ban_notification : M unit :=
  fold_right (fun a k => emit (NotifyAdmin a) ;;; k) (ret tt) ADMIN_IDS.

Definition try_delete (e : env) (cid : Z) : M bool :=
  emit (DeleteMessage cid) ;;; ret (delete_ok e).

Definition try_ban (e : env) (cid uid : Z) : M bool :=
  emit (BanChatMember cid uid) ;;; ret (ban_ok e).

(** [sender_id = event.from_user.id if event.from_user else None] and its
    truthiness in [if sender_id:]. *)
Definition sender_id (m : message) : option Z := option_map user_id (from_user m).
Definition sender_truthy (m : message) : bool :=
  match sender_id m with Some i => negb (Z.eqb i 0) | None => false end.
Definition sender_or_zero (m : message) : Z :=
  match sender_id m with Some i => i | None => 0 end.

Definition is_privileged (s : member_status) : bool :=
  match s with CREATOR | ADMINISTRATOR => true | _ => false end.

Definition when (b : bool) (c : M unit) : M unit := if b then c else ret tt.

(** The voice branch of [__call__]: [Some o] when it returns, [None] when it
    falls through to the text/caption branch. *)
Definition voice_branch (e : env) (m : message) : M (option outcome) :=
  let cid := chat_id m in
  match voice m with
  | None => ret None
  | Some _ =>
      if negb (bot e) then ret None else
      match transcription e with
      | Some (x :: xs) =>
          let tt := x :: xs in
          if _has_forbidden_chars tt then
            ok <- try_delete e cid ;;
            when ok (stat (add_checked cid) ;;;
                       stat (add_deleted cid "forbidden_chars")) ;;;
            ret (Some Dropped)
          else
            match py_max (predict_proba tt) with
            | None => ret (Some Raised)
            | Some max_proba =>
                if Qle_bool PROFANITY_THRESHOLD max_proba then
                  ok <- try_delete e cid ;;
                  when ok
                    (stat (add_checked cid) ;;;
                     stat (add_deleted cid "profanity") ;;;
                     when (bot e && sender_truthy m)
                       (okb <- try_ban e cid (sender_or_zero m) ;;
                        when okb (stat (add_banned cid) ;;;
                                    _send_ban_notification))) ;;;
                  ret (Some Dropped)
                else ret None
            end
      | _ => ret None
      end
  end.

(** The text/caption branch of [__call__]. *)
Definition text_branch (e : env) (m : message) : M outcome :=
  let cid := chat_id m in
  let message_text := text_or_caption m in
  if _has_forbidden_chars message_text then
    ok <- try_delete e cid ;;
    when ok (stat (add_checked cid) ;;;
               stat (add_deleted cid "forbidden_chars")) ;;;
    ret Dropped
  else if _has_urls m then
    ok <- try_delete e cid ;;
    when ok (stat (add_checked cid) ;;; stat (add_deleted cid "urls")) ;;;
    ret Dropped
  else
    stat (add_checked cid) ;;;
    match py_max (predict_proba message_text) with
    | None => ret Raised
    | Some max_proba =>
        if Qle_bool PROFANITY_THRESHOLD max_proba then
          ok <- try_delete e cid ;;
          when ok (stat (add_deleted cid "profanity")) ;;;
          when (bot e && sender_truthy m)
            (okb <- try_ban e cid (sender_or_zero m) ;;
             when okb (stat (add_banned cid) ;;; _send_ban_notification)) ;;;
          ret Dropped
        else ret Passed
    end.

(** The creator/administrator check: [get_chat_member] raising
    ([member_lookup e = None]) lets the moderation go on. *)
Definition privileged (e : env) (m : message) : bool :=
  sender_truthy m && bot e &&
  match member_lookup e with
  | Some st => is_privileged st
  | None => false
  end.

(** The part of [__call__] after the privilege check: the voice branch,
    then the text/caption branch, then [handler]. *)
Definition moderate (e : env) (m : message) : M outcome :=
  v <- voice_branch e m ;;
  match v with
  | Some o => ret o
  | None =>
      if truthy (msg_text m) || truthy (caption m) then text_branch e m
      else ret Passed
  end.

(** [ProfanityMiddleware.__call__] on a [Message] event. *)
Definition call (e : env) (m : message) : M outcome :=
  match chat_kind m with
  | PRIVATE => ret Passed
  | _ =>
    if negb (mem (chat_id m) ALLOWED_CHAT_IDS) then ret Dropped
    else if privileged e m then ret Passed
    else moderate e m
  end.

End Config.

End Pipeline.

(** ** Concrete inputs *)

Module Inputs.
Import Stats Middleware Pipeline.

(** An ASCII string as a list of code points. *)
Definition of_ascii (s : string) : text :=
  map (fun a => Z.of_nat (Ascii.nat_of_ascii a)) (list_ascii_of_string s).

(** Python's [str.isdigit], [\s] and [\w] restricted to the characters of
    the inputs below (ASCII and the Cyrillic block), where they agree with
    Python's Unicode tables. *)
Definition isdigit_basic (c : Z) : bool := in_range 48 57 c.
Definition isspace_basic (c : Z) : bool := mem c [32; 9; 10; 11; 12; 13].
Definition isword_basic (c : Z) : bool :=
  in_range 48 57 c || is_latin c || Z.eqb c 95 || in_range 1024 1279 c.

(** The Cyrillic word [privet] (hello). *)
Definition privet : text := [1087; 1088; 1080; 1074; 1077; 1090].

(** A supergroup text message from user 55. *)
Definition text_msg (cid : Z) (t : text) : message :=
  mk_message cid SUPERGROUP (Some (mk_user 55 None (Some "A"%string))) None
    (Some t) None [] [] None.

(** [unicodedata.decimal] on ASCII. *)
Definition ascii_digit_value (c : Z) : option Z :=
  if in_range 48 57 c then Some (c - 48) else None.

(** A plain member, bot present, every API call succeeding. *)
Definition member_env : env := mk_env true (Some MEMBER) None true true.

Definition start_world : world := mk_world (reset 0) [].

(** The configuration of the scenarios: chat 100 allowed, admin 1,
    threshold 0.7. *)
Definition run (pp : text -> list Q) (e : env) (m : message) (w : world)
  : outcome * world :=
  call [100] [1] (7 # 10) pp isdigit_basic isspace_basic isword_basic e m w.

End Inputs.

(** ** Python string and integer primitives used by handlers and config *)

Module PyText.
Import Middleware.

(** [str.split(sep)] for a one-character separator. *)
Fixpoint split_on (sep : Z) (s : text) : list text :=
  match s with
  | [] => [[]]
  | c :: r =>
      if Z.eqb c sep then [] :: split_on sep r
      else match split_on sep r with
           | h :: t => (c :: h) :: t
           | [] => [[c]]
           end
  end.

(** [sep.join(parts)] for a one-character separator. *)
Fixpoint join_on (sep : Z) (parts : list text) : text :=
  match parts with
  | [] => []
  | [p] => p
  | p :: ps => p ++ sep :: join_on sep ps
  end.

(** [str(n)] of a non-negative integer: decimal digits, least significant
    first, with fuel bounding the number of divisions by ten. *)
Fixpoint rev_digits (fuel : nat) (n : Z) : list Z :=
  match fuel with
  | O => []
  | S f => if n <? 10 then [48 + n] else (48 + n mod 10) :: rev_digits f (n / 10)
  end.

Definition str_nonneg (n : Z) : text :=
  rev (rev_digits (S (Z.to_nat (Z.log2 n))) n).

(** [str(n)] of a Python [int]. *)
Definition py_str (z : Z) : text :=
  if z <? 0 then 45 :: str_nonneg (- z) else str_nonneg z.

Section Unicode.
(** [str.isspace] and the decimal value of a Unicode digit, as [int()]
    reads it ([unicodedata.decimal]). *)
Variable isspace : Z -> bool.
Variable digit_value : Z -> option Z.

Fixpoint drop_space (s : text) : text :=
  match s with
  | c :: r => if isspace c then drop_space r else s
  | [] => []
  end.

(** [str.strip()] *)
Definition strip (s : text) : text := rev (drop_space (rev (drop_space s))).

(** The digits of [int()] after the first one: a single [_] may separate
    two digits. *)
Fixpoint digits_tail (acc : Z) (prev_us : bool) (s : text) : option Z :=
  match s with
  | [] => if prev_us then None else Some acc
  | c :: r =>
      if Z.eqb c 95 then (if prev_us then None else digits_tail acc true r)
      else match digit_value c with
           | Some d => digits_tail (acc * 10 + d) false r
           | None => None
           end
  end.

Definition parse_digits (s : text) : option Z :=
  match s with
  | [] => None
  | c :: r =>
      match digit_value c with
      | Some d => digits_tail d false r
      | None => None
      end
  end.

(** [int(s)] in base 10: surrounding whitespace, an optional sign, then the
    digits; [None] is the [ValueError]. *)
Definition py_int (s : text) : option Z :=
  match strip s with
  | [] => None
  | c :: r =>
      if Z.eqb c 43 then parse_digits r
      else if Z.eqb c 45 then option_map Z.opp (parse_digits r)
      else parse_digits (c :: r)
  end.

End Unicode.

End PyText.

(** ** src/handlers/common.py: the unban button of the ban notification *)

Module Callbacks.
Import Middleware PyText.

(** The [callback_data] of the two buttons built in
    [_send_ban_notification]: [f"unban_{chat_id}_{user_id}"] and
    ["hide_ban_notification"]. *)
Definition unban_prefix : text := [117; 110; 98; 97; 110; 95].

Definition unban_callback_data (chat_id user_id : Z) : text :=
  unban_prefix ++ py_str chat_id ++ 95 :: py_str user_id.

Definition hide_callback_data : text :=
  [104; 105; 100; 101; 95; 98; 97; 110; 95; 110; 111; 116; 105; 102; 105; 99;
   97; 116; 105; 111; 110].

Fixpoint starts_with (p s : text) : bool :=
  match p, s with
  | [], _ => true
  | x :: p', c :: s' => Z.eqb x c && starts_with p' s'
  | _ :: _, [] => false
  end.

(** The router filter [c.data and c.data.startswith("unban_")]. *)
Definition unban_filter (data : option text) : bool :=
  match data with
  | Some ((_ :: _) as d) => starts_with unban_prefix d
  | _ => false
  end.

(** The suffix appended to the notification:
    newline, newline, U+2705, space, then the bold text [user unbanned]. *)
Definition unbanned_suffix : text :=
  [10; 10; 9989; 32; 60; 98; 62; 1055; 1086; 1083; 1100; 1079; 1086; 1074;
   1072; 1090; 1077; 1083; 1100; 32; 1088; 1072; 1079; 1073; 1072; 1085; 1077;
   1085; 60; 47; 98; 62].

(** The replies of [callback.answer]: bad format, unbanned, unban failed,
    generic error. *)
Inductive answer := AnsBadFormat | AnsUnbanned | AnsUnbanError | AnsError.

(** Telegram API calls of the handler. A failing [edit_text] is swallowed
    by the bare [except]. *)
Inductive cb_call :=
  | UnbanChatMember (chat user : Z)
  | Answer (a : answer) (show_alert : bool)
  | EditText (t : text).

Section Handler.
Variable isspace : Z -> bool.
Variable digit_value : Z -> option Z.

(** The calls issued by a run of the handler, and whether an exception
    escapes it. *)
Definition run_result := (list cb_call * bool)%type.

Definition prepend (c : cb_call) (r : run_result) : run_result := (c :: fst r, snd r).

(** [await callback.answer(...)] inside a [try] whose [except] runs
    [on_error]; [answer_ok a] tells whether that answer succeeded. *)
Definition answer_or (answer_ok : answer -> bool) (a : answer) (show_alert : bool)
  (on_error : run_result) : run_result :=
  if answer_ok a then ([Answer a show_alert], false)
  else prepend (Answer a show_alert) on_error.

(** [handle_unban_callback]: [unban_ok] tells whether
    [bot.unban_chat_member] succeeded; [original_text] is the value of
    [callback.message.text or callback.message.caption or ""], [None] when
    reading it raises (message inaccessible). A [ValueError] of [int]
    reaches the outer [except]; an exception of the outer [except] escapes
    the handler. *)
Definition handle_unban_callback (answer_ok : answer -> bool) (unban_ok : bool)
  (original_text : option text) (data : text) : run_result :=
  let outer := answer_or answer_ok AnsError true ([], true) in
  let inner := answer_or answer_ok AnsUnbanError true outer in
  let parts := split_on 95 data in
  if negb (Nat.eqb (List.length parts) 3) then answer_or answer_ok AnsBadFormat true outer
  else
    match parts with
    | [_; p1; p2] =>
        match py_int isspace digit_value p1 with
        | None => outer
        | Some chat_id =>
            match py_int isspace digit_value p2 with
            | None => outer
            | Some user_id =>
                prepend (UnbanChatMember chat_id user_id)
                  (if negb unban_ok then inner
                   else if negb (answer_ok AnsUnbanned)
                   then prepend (Answer AnsUnbanned false) inner
                   else match original_text with
                        | None => prepend (Answer AnsUnbanned false) inner
                        | Some t =>
                            ([Answer AnsUnbanned false;
                              EditText (t ++ unbanned_suffix)], false)
                        end)
            end
        end
    | _ => ([], false)
    end.

End Handler.
End Callbacks.

(** ** src/config.py: comma-separated id lists *)

Module ConfigParse.
Import Middleware PyText.

Section Parse.
Variable isspace : Z -> bool.
Variable digit_value : Z -> option Z.

(** [[int(x.strip()) for x in s.split(",") if x.strip()]]; [None] is the
    [ValueError] of [int], which aborts the import of [config]. *)
Fixpoint parse_items (xs : list text) : option (list Z) :=
  match xs with
  | [] => Some []
  | x :: r =>
      match strip isspace x with
      | [] => parse_items r
      | y =>
          match py_int isspace digit_value y, parse_items r with
          | Some n, Some l => Some (n :: l)
          | _, _ => None
          end
      end
  end.

Definition parse_id_list (s : text) : option (list Z) :=
  parse_items (split_on 44 s).

(** [ALLOWED_CHAT_IDS] and [ADMIN_IDS]: the variable (default [""]) must be
    non-empty ([NotFound], the first [ValueError]), each item must be an
    integer ([BadInt], the [ValueError] of [int]), and the list must be
    non-empty ([EmptyList], the second [ValueError]);
    [EXEMPT_SENDER_CHAT_IDS] has only the [int] check. *)
Inductive load_result := Loaded (ids : list Z) | NotFound | BadInt | EmptyList.

Definition load_required_ids (raw : option text) : load_result :=
  let s := match raw with Some v => v | None => [] end in
  match s with
  | [] => NotFound
  | _ =>
      match parse_id_list s with
      | None => BadInt
      | Some [] => EmptyList
      | Some l => Loaded l
      end
  end.

Definition load_optional_ids (raw : option text) : option (list Z) :=
  parse_id_list (match raw with Some v => v | None => [] end).

End Parse.
End ConfigParse.

(** ** [_transcribe_voice] on the instance [__init__] builds *)

Module Transcribe.
Import Stats Middleware Pipeline.

(** The [recognizer] attribute of a [ProfanityMiddleware] instance: [None]
    when it was never assigned, [Some b] with its truthiness otherwise.
    [__init__] assigns [swear_checker], [statistics], [url_pattern] and
    [forbidden_special_chars_pattern] only. *)
Record instance := mk_instance { recognizer : option bool }.

Definition init_instance : instance := mk_instance None.

Inductive transcribe_result := Returned (t : option text) | RaisedAttributeError.

(** [_transcribe_voice]: [SPEECH_RECOGNITION_AVAILABLE] and the guard
    [not self.recognizer] come before the [try]; [recognized] is what the
    download, conversion and [_recognize_audio] give inside the [try]
    (every exception there turned into [None]). *)
Definition _transcribe_voice (sr_available : bool) (inst : instance)
  (recognized : option text) : transcribe_result :=
  if negb sr_available then Returned None
  else match recognizer inst with
       | None => RaisedAttributeError
       | Some false => Returned None
       | Some true => Returned recognized
       end.

Definition with_transcription (e : env) (t : option text) : env :=
  mk_env (bot e) (member_lookup e) t (delete_ok e) (ban_ok e).

Section Full.
Variable ALLOWED_CHAT_IDS ADMIN_IDS : list Z.
Variable PROFANITY_THRESHOLD : Q.
Variable predict_proba : text -> list Q.
Variable isdigit isspace isword : Z -> bool.

(** [__call__] reaches [_transcribe_voice] for a voice message in an allowed
    group chat from a non-privileged sender when the bot is set. *)
Definition reaches_transcription (e : env) (m : message) : bool :=
  match chat_kind m with PRIVATE => false | _ => true end
  && mem (chat_id m) ALLOWED_CHAT_IDS && negb (privileged e m)
  && match voice m with Some _ => true | None => false end && bot e.

(** [__call__] with [_transcribe_voice] run where the voice branch calls
    it; its exception is not caught in [__call__]. *)
Definition call_transcribing (sr_available : bool) (inst : instance)
  (recognized : option text) (e : env) (m : message) : M outcome :=
  if reaches_transcription e m then
    match _transcribe_voice sr_available inst recognized with
    | RaisedAttributeError => ret Raised
    | Returned t =>
        call ALLOWED_CHAT_IDS ADMIN_IDS PROFANITY_THRESHOLD predict_proba
          isdigit isspace isword (with_transcription e t) m
    end
  else call ALLOWED_CHAT_IDS ADMIN_IDS PROFANITY_THRESHOLD predict_proba
         isdigit isspace isword e m.

End Full.
End Transcribe.

(** ** Claims *)

Module Claims.
Import Stats Middleware Pipeline Inputs.

Lemma call_moderated (allowed admins : list Z) (thr : Q)
  (pp : text -> list Q) (dig sp wd : Z -> bool) (e : env) (m : message) :
  chat_kind m <> PRIVATE ->
  mem (chat_id m) allowed = true ->
  privileged e m = false ->
  call allowed admins thr pp dig sp wd e m
  = moderate admins thr pp dig sp wd e m.
Proof.
  intros Hk Ha Hp; unfold call.
  destruct (chat_kind m); [congruence | | |]; rewrite Ha, Hp; reflexivity.
Qed.

(** C1 (amended): a non-privileged text message in an allowed group chat
    whose text has no forbidden characters and no link, and whose score is
    below the threshold, is passed on with no API call; [checked] grows by
    one and [deleted] is unchanged. *)
Theorem C1_clean_text_allowed (allowed admins : list Z) (thr : Q)
  (pp : text -> list Q) (dig sp wd : Z -> bool) (e : env) (m : message)
  (w : world) (p : Q) :
  chat_kind m <> PRIVATE ->
  mem (chat_id m) allowed = true ->
  privileged e m = false ->
  voice m = None ->
  truthy (msg_text m) = true ->
  _has_forbidden_chars dig (text_or_caption m) = false ->
  _has_urls sp wd m = false ->
  py_max (pp (text_or_caption m)) = Some p ->
  Qle_bool thr p = false ->
  let '(o, w') := call allowed admins thr pp dig sp wd e m w in
  o = Passed /\ w_log w' = w_log w /\
  total_checked (w_stats w') = S (total_checked (w_stats w)) /\
  total_deleted (w_stats w') = total_deleted (w_stats w).
Proof.
  intros Hk Ha Hp Hv Ht Hf Hu Hm Hq.
  rewrite call_moderated by assumption.
  unfold moderate, bind, voice_branch; rewrite Hv; simpl; rewrite Ht; simpl.
  unfold text_branch; rewrite Hf, Hu; simpl.
  unfold bind, stat; simpl; rewrite Hm, Hq; simpl.
  repeat split.
Qed.

(** C1, at the scenario's own input: in chat 100 the text [hello] is
    Latin, so it is deleted as forbidden characters instead of being passed
    on. *)
Lemma C1_hello_deleted :
  let '(o, w') := run (fun _ => [0 # 1]) member_env
                      (text_msg 100 (of_ascii "hello")) start_world in
  o = Dropped /\ w_log w' = [DeleteMessage 100] /\
  total_deleted (w_stats w') = 1%nat /\
  deleted_forbidden_chars (w_stats w') = 1%nat.
Proof. vm_compute; repeat split. Qed.

Lemma C1_clean_text_allowed_witness :
  let '(o, w') := call [100] [1] (7 # 10) (fun _ => [0 # 1]) isdigit_basic
                    isspace_basic isword_basic member_env (text_msg 100 privet)
                    start_world in
  o = Passed /\ w_log w' = w_log start_world /\
  total_checked (w_stats w') = S (total_checked (w_stats start_world)) /\
  total_deleted (w_stats w') = total_deleted (w_stats start_world).
Proof.
  apply (C1_clean_text_allowed [100] [1] (7 # 10) (fun _ => [0 # 1])
           isdigit_basic isspace_basic isword_basic member_env
           (text_msg 100 privet) start_world (0 # 1));
    first [discriminate | reflexivity].
Defined.

(** The Cyrillic domain [primer.rf] (example.rf), which Telegram marks as a
    URL entity. *)
Definition primer_rf : text := [1087; 1088; 1080; 1084; 1077; 1088; 46; 1088; 1092].

(** C2 (amended): a text message in an allowed chat whose text passes the
    forbidden-character check but carries a link is deleted, the deletion
    is counted under [urls], and no ban is attempted. *)
Theorem C2_link_rejected (allowed admins : list Z) (thr : Q)
  (pp : text -> list Q) (dig sp wd : Z -> bool) (e : env) (m : message)
  (w : world) :
  chat_kind m <> PRIVATE ->
  mem (chat_id m) allowed = true ->
  privileged e m = false ->
  voice m = None ->
  truthy (msg_text m) = true ->
  _has_forbidden_chars dig (text_or_caption m) = false ->
  _has_urls sp wd m = true ->
  delete_ok e = true ->
  let '(o, w') := call allowed admins thr pp dig sp wd e m w in
  o = Dropped /\ w_log w' = w_log w ++ [DeleteMessage (chat_id m)] /\
  w_stats w' = add_deleted (chat_id m) "urls" (add_checked (chat_id m) (w_stats w)) /\
  deleted_urls (w_stats w') = S (deleted_urls (w_stats w)) /\
  total_banned (w_stats w') = total_banned (w_stats w).
Proof.
  intros Hk Ha Hp Hv Ht Hf Hu Hd.
  rewrite call_moderated by assumption.
  unfold moderate, bind, voice_branch; rewrite Hv; simpl; rewrite Ht; simpl.
  unfold text_branch; rewrite Hf, Hu; simpl.
  unfold try_delete, bind, emit, stat, when; simpl; rewrite Hd; simpl.
  repeat split.
Qed.

Lemma C2_link_rejected_witness :
  let m := mk_message 100 SUPERGROUP (Some (mk_user 55 None None)) None
             (Some primer_rf) None [URL] [] None in
  let '(o, w') := call [100] [1] (7 # 10) (fun _ => [0 # 1]) isdigit_basic
                    isspace_basic isword_basic member_env m start_world in
  o = Dropped /\ w_log w' = w_log start_world ++ [DeleteMessage (chat_id m)] /\
  w_stats w' = add_deleted (chat_id m) "urls"
                 (add_checked (chat_id m) (w_stats start_world)) /\
  deleted_urls (w_stats w') = S (deleted_urls (w_stats start_world)) /\
  total_banned (w_stats w') = total_banned (w_stats start_world).
Proof.
  intro m.
  apply (C2_link_rejected [100] [1] (7 # 10) (fun _ => [0 # 1])
           isdigit_basic isspace_basic isword_basic member_env m start_world);
    first [discriminate | reflexivity].
Defined.

(** C2, at the scenario's own input: [visit http://x.com] is Latin, so it
    is rejected as forbidden characters; nothing is counted under [urls]. *)
Lemma C2_visit_link_forbidden_chars :
  let '(o, w') := run (fun _ => [0 # 1]) member_env
                      (text_msg 100 (of_ascii "visit http://x.com")) start_world in
  o = Dropped /\ deleted_urls (w_stats w') = 0%nat /\
  deleted_forbidden_chars (w_stats w') = 1%nat /\
  w_log w' = [DeleteMessage 100].
Proof. vm_compute; repeat split. Qed.

(** C5: a group message from a chat outside [ALLOWED_CHAT_IDS] is dropped
    without calling the handler, with no API call and no statistics
    change. *)
Theorem C5_out_of_scope_dropped (allowed admins : list Z) (thr : Q)
  (pp : text -> list Q) (dig sp wd : Z -> bool) (e : env) (m : message)
  (w : world) :
  chat_kind m <> PRIVATE ->
  mem (chat_id m) allowed = false ->
  call allowed admins thr pp dig sp wd e m w = (Dropped, w).
Proof.
  intros Hk Ha; unfold call.
  destruct (chat_kind m); [congruence | | |]; rewrite Ha; reflexivity.
Qed.

Lemma C5_out_of_scope_dropped_witness :
  call [100] [1] (7 # 10) (fun _ => [1 # 1]) isdigit_basic isspace_basic
    isword_basic member_env (text_msg 200 (of_ascii "hello")) start_world
  = (Dropped, start_world).
Proof.
  apply C5_out_of_scope_dropped; [discriminate | reflexivity].
Defined.

Lemma send_ban_notification_log (admins : list Z) (w : world) :
  _send_ban_notification admins w
  = (tt, mk_world (w_stats w) (w_log w ++ map NotifyAdmin admins)).
Proof.
  revert w; induction admins as [| a admins IH]; intros [st lg]; simpl.
  - rewrite app_nil_r; reflexivity.
  - unfold bind, emit; simpl; rewrite IH; simpl.
    rewrite <- app_assoc; reflexivity.
Qed.

(** The recording calls the middleware makes on [Statistics]. *)
Inductive stats_call :=
  | CallChecked (chat : Z)
  | CallDeleted (chat : Z) (deletion_type : string)
  | CallBanned (chat : Z).

Definition apply_call (s : Statistics) (c : stats_call) : Statistics :=
  match c with
  | CallChecked cid => add_checked cid s
  | CallDeleted cid ty => add_deleted cid ty s
  | CallBanned cid => add_banned cid s
  end.

Definition known_type (c : stats_call) : Prop :=
  match c with
  | CallDeleted _ ty =>
      ty = "forbidden_chars"%string \/ ty = "urls"%string \/ ty = "profanity"%string
  | _ => True
  end.

Lemma sum_chats_update (f : chat_stats -> nat) (g : chat_stats -> chat_stats)
  (n : nat) (k : Z) (m : by_chat_t) :
  f empty_chat_stats = 0%nat ->
  (forall c, f (g c) = (f c + n)%nat) ->
  sum_chats f (by_chat_update k g m) = (sum_chats f m + n)%nat.
Proof.
  intros H0 Hg; induction m as [| [k' v] m IH]; simpl.
  - unfold sum_chats; simpl; rewrite Hg, H0; lia.
  - destruct (Z.eqb k k'); unfold sum_chats in *; simpl in *.
    + rewrite Hg; lia.
    + rewrite IH; lia.
Qed.

Ltac sum_step :=
  first
    [ rewrite (sum_chats_update _ _ 1%nat); [ | reflexivity | intros []; simpl; lia ]
    | rewrite (sum_chats_update _ _ 0%nat); [ | reflexivity | intros []; simpl; lia ] ].

Definition stats_invariant (s : Statistics) : Prop :=
  total_checked s = sum_chats checked (by_chat s) /\
  total_deleted s = sum_chats deleted (by_chat s) /\
  total_deleted s =
    (deleted_forbidden_chars s + deleted_urls s + deleted_profanity s)%nat /\
  total_banned s = sum_chats banned (by_chat s).

Lemma apply_call_invariant (s : Statistics) (c : stats_call) :
  known_type c -> stats_invariant s -> stats_invariant (apply_call s c).
Proof.
  intros Hc (H1 & H2 & H3 & H4).
  destruct c as [cid | cid ty | cid]; simpl in *.
  - unfold stats_invariant, add_checked; simpl.
    repeat sum_step; lia.
  - unfold add_deleted.
    destruct Hc as [-> | [-> | ->]]; simpl;
      unfold stats_invariant; simpl; repeat sum_step; lia.
  - unfold stats_invariant, add_banned; simpl.
    repeat sum_step; lia.
Qed.

(** C9: from a reset, every sequence of [add_checked], [add_deleted] with a
    type among forbidden_chars, urls, profanity, and [add_banned] keeps the
    global counters equal to the per-chat sums, and [total_deleted] equal
    to the sum of the three category counters. *)
Theorem C9_cross_counter_invariant (now : Z) (calls : list stats_call) :
  Forall known_type calls ->
  let s := fold_left apply_call calls (reset now) in
  total_checked s = sum_chats checked (by_chat s) /\
  total_deleted s = sum_chats deleted (by_chat s) /\
  total_deleted s =
    (deleted_forbidden_chars s + deleted_urls s + deleted_profanity s)%nat /\
  total_banned s = sum_chats banned (by_chat s).
Proof.
  intros Hall.
  assert (Hgen : forall s, stats_invariant s ->
            stats_invariant (fold_left apply_call calls s)).
  { induction Hall as [| c calls Hc Hall IH]; intros s Hs; simpl.
    - exact Hs.
    - apply IH, apply_call_invariant; assumption. }
  apply Hgen; unfold stats_invariant; simpl; repeat split.
Qed.

Lemma C9_cross_counter_invariant_witness :
  let s := fold_left apply_call
             [CallChecked 100; CallDeleted 100 "urls"; CallChecked 200;
              CallDeleted 200 "profanity"; CallBanned 200] (reset 0) in
  total_checked s = sum_chats checked (by_chat s) /\
  total_deleted s = sum_chats deleted (by_chat s) /\
  total_deleted s =
    (deleted_forbidden_chars s + deleted_urls s + deleted_profanity s)%nat /\
  total_banned s = sum_chats banned (by_chat s).
Proof.
  apply C9_cross_counter_invariant.
  repeat apply Forall_cons; try apply Forall_nil; simpl; auto.
Defined.

(** C7: after N [add_checked] calls since a reset, the report built by
    [get_stats_text] shows exactly N checked messages (the no-activity text
    when N = 0), and [send_daily_stats] then leaves a fresh [Statistics]:
    every global, per-category and per-chat counter at zero and the period
    starting at the new [datetime.now()]. *)
Theorem C7_snapshot_then_reset (now0 now1 : Z) (cids : list Z)
  (admins : list Z) (sent : Z -> bool) :
  let s := fold_left (fun s c => add_checked c s) cids (reset now0) in
  total_checked s = List.length cids /\
  Report.get_stats_text s =
    (if Nat.eqb (List.length cids) 0 then Report.NoActivity
     else Report.Figures now0 (Z.of_nat (List.length cids)) 0 0 0 0 0 (by_chat s)) /\
  let s' := snd (Report.send_daily_stats admins sent now1 s) in
  total_checked s' = 0%nat /\ total_deleted s' = 0%nat /\
  deleted_forbidden_chars s' = 0%nat /\ deleted_urls s' = 0%nat /\
  deleted_profanity s' = 0%nat /\ total_banned s' = 0%nat /\
  by_chat s' = [] /\ start_date s' = now1.
Proof.
  assert (Hg : forall l s, total_checked (fold_left (fun s c => add_checked c s) l s)
                           = (total_checked s + List.length l)%nat /\
                           total_deleted (fold_left (fun s c => add_checked c s) l s)
                           = total_deleted s /\
                           deleted_forbidden_chars (fold_left (fun s c => add_checked c s) l s)
                           = deleted_forbidden_chars s /\
                           deleted_urls (fold_left (fun s c => add_checked c s) l s)
                           = deleted_urls s /\
                           deleted_profanity (fold_left (fun s c => add_checked c s) l s)
                           = deleted_profanity s /\
                           total_banned (fold_left (fun s c => add_checked c s) l s)
                           = total_banned s /\
                           start_date (fold_left (fun s c => add_checked c s) l s)
                           = start_date s).
  { induction l as [| c l IH]; intros s; simpl.
    - repeat split; lia.
    - destruct (IH (add_checked c s)) as (A & B & C & D & E & F & G);
        simpl in *; repeat split; lia. }
  cbv zeta.
  destruct (Hg cids (reset now0)) as (A & B & C & D & E & F & G);
    simpl in A, B, C, D, E, F, G.
  split; [exact A |].
  split.
  - unfold Report.get_stats_text; rewrite A, B, C, D, E, F, G; simpl.
    reflexivity.
  - simpl; repeat split.
Qed.

(** The same update with [event.voice] unset. *)
Definition without_voice (m : message) : message :=
  mk_message (chat_id m) (chat_kind m) (from_user m) (sender_chat m)
    (msg_text m) (caption m) (entities m) (caption_entities m) None.

Lemma call_without_voice (allowed admins : list Z) (thr : Q)
  (pp : text -> list Q) (dig sp wd : Z -> bool) (e : env) (m : message)
  (w : world) :
  voice_branch admins thr pp dig e m w = (None, w) ->
  call allowed admins thr pp dig sp wd e m w
  = call allowed admins thr pp dig sp wd e (without_voice m) w.
Proof.
  intros Hv.
  assert (Hm : moderate admins thr pp dig sp wd e m w
               = moderate admins thr pp dig sp wd e (without_voice m) w).
  { unfold moderate, bind; rewrite Hv; simpl.
    destruct (truthy (msg_text m) || truthy (caption m)) eqn:Ht.
    - unfold text_branch, _has_urls, text_or_caption, sender_truthy,
        sender_or_zero, sender_id; simpl; reflexivity.
    - reflexivity. }
  unfold call; simpl.
  unfold privileged, sender_truthy, sender_id; simpl.
  destruct (chat_kind m); try reflexivity;
    destruct (negb (mem (chat_id m) allowed)); try reflexivity;
    destruct (match option_map user_id (from_user m) with
              | Some i => negb (i =? 0) | None => false end && bot e &&
              match member_lookup e with
              | Some st => is_privileged st | None => false end);
    try reflexivity; exact Hm.
Qed.

Lemma call_no_text_passed (allowed admins : list Z) (thr : Q)
  (pp : text -> list Q) (dig sp wd : Z -> bool) (e : env) (m : message)
  (w : world) :
  voice_branch admins thr pp dig e m w = (None, w) ->
  chat_kind m <> PRIVATE ->
  mem (chat_id m) allowed = true ->
  truthy (msg_text m) = false -> truthy (caption m) = false ->
  call allowed admins thr pp dig sp wd e m w = (Passed, w).
Proof.
  intros Hv Hk Ha Ht Hc; unfold call.
  destruct (chat_kind m); [congruence | | |]; rewrite Ha; simpl;
    (destruct (privileged e m); [reflexivity |]);
    unfold moderate, bind; rewrite Hv, Ht, Hc; reflexivity.
Qed.

Lemma Qlt_le_bool_false (p thr : Q) : (p < thr)%Q -> Qle_bool thr p = false.
Proof.
  intros Hq. destruct (Qle_bool thr p) eqn:E; [| reflexivity].
  apply Qle_bool_iff in E; exfalso; apply (Qlt_not_le p thr); assumption.
Qed.

(** A transcript that passes both checks makes the voice branch fall
    through without any effect. *)
Lemma voice_branch_clean (admins : list Z) (thr : Q) (pp : text -> list Q)
  (dig : Z -> bool) (e : env) (m : message) (w : world)
  (file_id : string) (t : text) (p : Q) :
  voice m = Some file_id ->
  transcription e = Some t -> t <> [] ->
  _has_forbidden_chars dig t = false ->
  py_max (pp t) = Some p -> (p < thr)%Q ->
  voice_branch admins thr pp dig e m w = (None, w).
Proof.
  intros Hv Htr Hne Hf Hm Hq.
  unfold voice_branch; rewrite Hv, Htr.
  destruct t as [| x xs]; [congruence |].
  cbv zeta; rewrite Hf, Hm, (Qlt_le_bool_false p thr Hq).
  destruct (bot e); reflexivity.
Qed.

(** The text/caption branch on a text that passes the character and link
    checks and scores below the threshold: [checked] is recorded, nothing
    else happens and the update is passed on. *)
Lemma text_path_passed (allowed admins : list Z) (thr : Q)
  (pp : text -> list Q) (dig sp wd : Z -> bool) (e : env) (m : message)
  (w : world) (q : Q) :
  voice_branch admins thr pp dig e m w = (None, w) ->
  chat_kind m <> PRIVATE -> mem (chat_id m) allowed = true ->
  privileged e m = false ->
  truthy (msg_text m) || truthy (caption m) = true ->
  _has_forbidden_chars dig (text_or_caption m) = false ->
  _has_urls sp wd m = false ->
  py_max (pp (text_or_caption m)) = Some q -> (q < thr)%Q ->
  call allowed admins thr pp dig sp wd e m w
  = (Passed, mk_world (add_checked (chat_id m) (w_stats w)) (w_log w)).
Proof.
  intros Hv Hk Ha Hp Ht Hf Hu Hm Hq.
  rewrite call_moderated by assumption.
  unfold moderate. unfold bind at 1. rewrite Hv. cbv iota beta. rewrite Ht.
  unfold text_branch. cbv zeta. rewrite Hf, Hu.
  unfold bind, stat; simpl; rewrite Hm, (Qlt_le_bool_false q thr Hq).
  reflexivity.
Qed.

(** C6: a message that reaches the profanity check (allowed group chat,
    non-privileged sender, bot present, deletion and ban succeeding) is
    rejected when its maximum score [p] is at or above the threshold: it is
    deleted, its author banned, [deleted_profanity], [total_deleted] and
    [total_banned] grow by one. When [p] is below the threshold it is not
    rejected. This holds for both places the score is compared. In the
    text/caption path (reached when the voice branch falls through, with a
    text or caption free of forbidden characters and links) a score below
    the threshold passes the update on with only [checked] recorded. In the
    voice path (the non-empty transcript of [event.voice], free of forbidden
    characters) a score below the threshold lets the update go on as the
    same message without voice, and passes it on unchanged when it has no
    text and no caption. *)
Theorem C6_threshold_boundary (allowed admins : list Z) (thr : Q)
  (pp : text -> list Q) (dig sp wd : Z -> bool) (e : env) (m : message)
  (w : world) :
  chat_kind m <> PRIVATE ->
  mem (chat_id m) allowed = true ->
  privileged e m = false ->
  bot e = true -> sender_truthy m = true ->
  delete_ok e = true -> ban_ok e = true ->
  (forall p : Q,
   voice_branch admins thr pp dig e m w = (None, w) ->
   truthy (msg_text m) || truthy (caption m) = true ->
   _has_forbidden_chars dig (text_or_caption m) = false ->
   _has_urls sp wd m = false ->
   py_max (pp (text_or_caption m)) = Some p ->
   ((thr <= p)%Q ->
    let '(o, w') := call allowed admins thr pp dig sp wd e m w in
    o = Dropped /\
    In (DeleteMessage (chat_id m)) (w_log w') /\
    In (BanChatMember (chat_id m) (sender_or_zero m)) (w_log w') /\
    deleted_profanity (w_stats w') = S (deleted_profanity (w_stats w)) /\
    total_deleted (w_stats w') = S (total_deleted (w_stats w)) /\
    total_banned (w_stats w') = S (total_banned (w_stats w)))
   /\
   ((p < thr)%Q ->
    call allowed admins thr pp dig sp wd e m w
    = (Passed, mk_world (add_checked (chat_id m) (w_stats w)) (w_log w))))
  /\
  (forall (file_id : string) (t : text) (p : Q),
   voice m = Some file_id ->
   transcription e = Some t -> t <> [] ->
   _has_forbidden_chars dig t = false ->
   py_max (pp t) = Some p ->
   ((thr <= p)%Q ->
    let '(o, w') := call allowed admins thr pp dig sp wd e m w in
    o = Dropped /\
    In (DeleteMessage (chat_id m)) (w_log w') /\
    In (BanChatMember (chat_id m) (sender_or_zero m)) (w_log w') /\
    deleted_profanity (w_stats w') = S (deleted_profanity (w_stats w)) /\
    total_deleted (w_stats w') = S (total_deleted (w_stats w)) /\
    total_banned (w_stats w') = S (total_banned (w_stats w)))
   /\
   ((p < thr)%Q ->
    call allowed admins thr pp dig sp wd e m w
    = call allowed admins thr pp dig sp wd e (without_voice m) w /\
    (truthy (msg_text m) = false -> truthy (caption m) = false ->
     call allowed admins thr pp dig sp wd e m w = (Passed, w)))).
Proof.
  intros Hk Ha Hp Hb Hs Hd Hban. split.
  - intros p Hv Ht Hf Hu Hm. split; intro Hq.
    + rewrite call_moderated by assumption.
      unfold moderate. unfold bind at 1. rewrite Hv. cbv iota beta. rewrite Ht.
      unfold text_branch. cbv zeta. rewrite Hf, Hu.
      unfold bind, stat; simpl; rewrite Hm.
      apply Qle_bool_iff in Hq; rewrite Hq.
      unfold try_delete, try_ban, bind, emit, when; simpl.
      rewrite Hd, Hb, Hs, Hban; simpl.
      rewrite send_ban_notification_log; simpl.
      repeat rewrite <- app_assoc; simpl.
      repeat split; apply in_or_app; right; simpl; auto.
    + apply (text_path_passed allowed admins thr pp dig sp wd e m w p);
        assumption.
  - intros file_id t p Hv Htr Hne Hf Hm. split; intro Hq.
    + rewrite call_moderated by assumption.
      unfold moderate, voice_branch, bind; rewrite Hv, Hb, Htr.
      destruct t as [| x xs]; [congruence |].
      cbv zeta; rewrite Hf, Hm.
      apply Qle_bool_iff in Hq; rewrite Hq.
      unfold try_delete, try_ban, emit, when, stat; simpl.
      rewrite ?Hd, ?Hb, ?Hs, ?Hban; simpl.
      rewrite send_ban_notification_log; simpl.
      repeat rewrite <- app_assoc; simpl.
      repeat split; apply in_or_app; right; simpl; auto.
    + pose proof (voice_branch_clean admins thr pp dig e m w file_id t p
                    Hv Htr Hne Hf Hm Hq) as Hvb.
      split.
      * apply call_without_voice; exact Hvb.
      * intros; apply call_no_text_passed; assumption.
Qed.

(** The voice message of the voice scenarios, from user 55, with neither
    text nor caption. *)
Definition voice_msg : message :=
  mk_message 100 SUPERGROUP (Some (mk_user 55 None None)) None
    None None [] [] (Some "voice-1"%string).

Definition voice_env : env := mk_env true (Some MEMBER) (Some privet) true true.

Lemma C6_threshold_boundary_witness :
  (let '(o, w') := run (fun _ => [7 # 10]) member_env (text_msg 100 privet)
                       start_world in
   o = Dropped /\
   In (DeleteMessage 100) (w_log w') /\
   In (BanChatMember 100 55) (w_log w') /\
   deleted_profanity (w_stats w') = S (deleted_profanity (w_stats start_world)) /\
   total_deleted (w_stats w') = S (total_deleted (w_stats start_world)) /\
   total_banned (w_stats w') = S (total_banned (w_stats start_world)))
  /\
  run (fun _ => [699 # 1000]) member_env (text_msg 100 privet) start_world
  = (Passed, mk_world (add_checked 100 (w_stats start_world)) (w_log start_world))
  /\
  (let '(o, w') := run (fun _ => [7 # 10]) voice_env voice_msg start_world in
   o = Dropped /\
   In (DeleteMessage 100) (w_log w') /\
   In (BanChatMember 100 55) (w_log w') /\
   deleted_profanity (w_stats w') = S (deleted_profanity (w_stats start_world)) /\
   total_deleted (w_stats w') = S (total_deleted (w_stats start_world)) /\
   total_banned (w_stats w') = S (total_banned (w_stats start_world)))
  /\
  run (fun _ => [699 # 1000]) voice_env voice_msg start_world
  = run (fun _ => [699 # 1000]) voice_env (without_voice voice_msg) start_world
  /\
  run (fun _ => [699 # 1000]) voice_env voice_msg start_world
  = (Passed, start_world).
Proof.
  unfold run.
  destruct (C6_threshold_boundary [100] [1] (7 # 10) (fun _ => [7 # 10])
              isdigit_basic isspace_basic isword_basic member_env
              (text_msg 100 privet) start_world ltac:(discriminate)
              eq_refl eq_refl eq_refl eq_refl eq_refl eq_refl) as [T1 _].
  destruct (C6_threshold_boundary [100] [1] (7 # 10) (fun _ => [699 # 1000])
              isdigit_basic isspace_basic isword_basic member_env
              (text_msg 100 privet) start_world ltac:(discriminate)
              eq_refl eq_refl eq_refl eq_refl eq_refl eq_refl) as [T2 _].
  destruct (C6_threshold_boundary [100] [1] (7 # 10) (fun _ => [7 # 10])
              isdigit_basic isspace_basic isword_basic voice_env
              voice_msg start_world ltac:(discriminate)
              eq_refl eq_refl eq_refl eq_refl eq_refl eq_refl) as [_ V1].
  destruct (C6_threshold_boundary [100] [1] (7 # 10) (fun _ => [699 # 1000])
              isdigit_basic isspace_basic isword_basic voice_env
              voice_msg start_world ltac:(discriminate)
              eq_refl eq_refl eq_refl eq_refl eq_refl eq_refl) as [_ V2].
  destruct (V2 "voice-1"%string privet (699 # 1000) eq_refl eq_refl
              ltac:(discriminate) eq_refl eq_refl) as [_ V2'].
  destruct (V2' ltac:(reflexivity)) as [V2a V2b].
  split; [| split; [| split; [| split]]].
  - apply (proj1 (T1 (7 # 10) eq_refl eq_refl eq_refl eq_refl eq_refl)).
    apply Qle_refl.
  - apply (proj2 (T2 (699 # 1000) eq_refl eq_refl eq_refl eq_refl eq_refl)).
    reflexivity.
  - apply (proj1 (V1 "voice-1"%string privet (7 # 10) eq_refl eq_refl
                     ltac:(discriminate) eq_refl eq_refl)).
    apply Qle_refl.
  - exact V2a.
  - apply V2b; reflexivity.
Defined.

(** C8 (amended): when [_transcribe_voice] returns [None] (or an empty
    string), the voice content is not moderated and the update goes on
    exactly as the same message without voice: if it has no text and no
    caption and its chat is an allowed group, it is passed on with no API
    call and no statistics change; a caption is still checked as text. *)
Theorem C8_failed_transcription_unmoderated (allowed admins : list Z)
  (thr : Q) (pp : text -> list Q) (dig sp wd : Z -> bool) (e : env)
  (m : message) (w : world) (file_id : string) :
  voice m = Some file_id ->
  (transcription e = None \/ transcription e = Some []) ->
  call allowed admins thr pp dig sp wd e m w
  = call allowed admins thr pp dig sp wd e (without_voice m) w /\
  (chat_kind m <> PRIVATE -> mem (chat_id m) allowed = true ->
   truthy (msg_text m) = false -> truthy (caption m) = false ->
   call allowed admins thr pp dig sp wd e m w = (Passed, w)).
Proof.
  intros Hv Htr.
  assert (Hb : voice_branch admins thr pp dig e m w = (None, w)).
  { unfold voice_branch; rewrite Hv.
    destruct (bot e); simpl; [| reflexivity].
    destruct Htr as [-> | ->]; reflexivity. }
  split.
  - apply call_without_voice; exact Hb.
  - intros; apply call_no_text_passed; assumption.
Qed.

Lemma C8_failed_transcription_unmoderated_witness :
  let m := mk_message 100 SUPERGROUP (Some (mk_user 55 None None)) None
             None None [] [] (Some "voice-1"%string) in
  call [100] [1] (7 # 10) (fun _ => [0 # 1]) isdigit_basic isspace_basic
    isword_basic member_env m start_world
  = call [100] [1] (7 # 10) (fun _ => [0 # 1]) isdigit_basic isspace_basic
    isword_basic member_env (without_voice m) start_world /\
  (chat_kind m <> PRIVATE -> mem (chat_id m) [100] = true ->
   truthy (msg_text m) = false -> truthy (caption m) = false ->
   call [100] [1] (7 # 10) (fun _ => [0 # 1]) isdigit_basic isspace_basic
     isword_basic member_env m start_world = (Passed, start_world)).
Proof.
  intro m.
  apply (C8_failed_transcription_unmoderated [100] [1] (7 # 10) (fun _ => [0 # 1])
           isdigit_basic isspace_basic isword_basic member_env m start_world
           "voice-1"%string eq_refl (or_introl eq_refl)).
Defined.

(** C8, on a voice message with a caption: the transcription fails, yet
    the Latin caption [hello] gets the message deleted and counted. *)
Lemma C8_captioned_voice_deleted :
  let m := mk_message 100 SUPERGROUP (Some (mk_user 55 None None)) None
             None (Some (of_ascii "hello")) [] [] (Some "voice-1"%string) in
  let '(o, w') := run (fun _ => [0 # 1]) member_env m start_world in
  o = Dropped /\ w_log w' = [DeleteMessage 100] /\
  total_deleted (w_stats w') = 1%nat.
Proof. vm_compute; repeat split. Qed.





(** C4: [config.EXEMPT_SENDER_CHAT_IDS] is never read by the middleware;
    a post in allowed chat 100 on behalf of an exempt channel (sender chat
    in the configured list) is moderated like any other message. *)
Lemma C4_exempt_sender_chat_moderated :
  let exempt := [-1001234] in
  let m := mk_message 100 SUPERGROUP (Some (mk_user 777000 None None))
             (Some (-1001234)) (Some (of_ascii "hello")) None [] [] None in
  mem (-1001234) exempt = true /\
  run (fun _ => [0 # 1]) (mk_env true None None true true) m start_world
  = (Dropped,
     mk_world (add_deleted 100 "forbidden_chars" (add_checked 100 (reset 0)))
       [DeleteMessage 100]).
Proof. split; vm_compute; reflexivity. Qed.

(** The same world answers with [event.delete()] succeeding. *)
Definition with_delete_ok (e : env) : env :=
  mk_env (bot e) (member_lookup e) (transcription e) true (ban_ok e).

Ltac split_branches :=
  repeat (simpl; try rewrite send_ban_notification_log; simpl;
          match goal with
          | |- context [match ?x with _ => _ end] =>
              lazymatch x with
              | context [_send_ban_notification] => fail
              | _ => lazymatch type of x with
                     | prod _ _ => fail
                     | _ => destruct x eqn:?
                     end
              end
          end).

Lemma by_chat_get_update (k k' : Z) (f : chat_stats -> chat_stats) (m : by_chat_t) :
  by_chat_get k' (by_chat_update k f m)
  = if Z.eqb k' k then f (by_chat_get k m) else by_chat_get k' m.
Proof.
  induction m as [| [k1 v] m IH]; simpl.
  - destruct (Z.eqb k' k); reflexivity.
  - destruct (Z.eqb_spec k k1) as [-> | Hne]; simpl.
    + destruct (Z.eqb_spec k' k1); reflexivity.
    + rewrite IH. destruct (Z.eqb_spec k' k) as [-> | Hne'].
      * destruct (Z.eqb_spec k k1); [congruence | reflexivity].
      * reflexivity.
Qed.

Definition is_delete (a : action) : bool :=
  match a with DeleteMessage _ => true | _ => false end.

(** The number of [event.delete()] calls in a list of API calls. *)
Definition deletions (l : list action) : nat := List.length (filter is_delete l).

Lemma filter_delete_notify (admins : list Z) :
  filter is_delete (map NotifyAdmin admins) = [].
Proof. induction admins as [| a admins IH]; simpl; [reflexivity | exact IH]. Qed.

Lemma failed_delete_totals (allowed admins : list Z) (thr : Q)
  (pp : text -> list Q) (dig sp wd : Z -> bool) (e : env) (m : message)
  (w : world) :
  delete_ok e = false ->
  let '(o, w') := call allowed admins thr pp dig sp wd e m w in
  o = fst (call allowed admins thr pp dig sp wd (with_delete_ok e) m w) /\
  total_deleted (w_stats w') = total_deleted (w_stats w) /\
  deleted_forbidden_chars (w_stats w') = deleted_forbidden_chars (w_stats w) /\
  deleted_urls (w_stats w') = deleted_urls (w_stats w) /\
  deleted_profanity (w_stats w') = deleted_profanity (w_stats w) /\
  sum_chats deleted (by_chat (w_stats w')) = sum_chats deleted (by_chat (w_stats w)).
Proof.
  intros Hd.
  destruct e as [b ml tr dok bok]; simpl in Hd; subst dok.
  unfold with_delete_ok; simpl.
  unfold call, privileged, moderate, voice_branch, text_branch, try_delete,
    try_ban, when, bind, ret, emit, stat.
  split_branches; repeat rewrite send_ban_notification_log; simpl;
    repeat split; repeat sum_step; lia.
Qed.

Lemma call_one_deletion (allowed admins : list Z) (thr : Q)
  (pp : text -> list Q) (dig sp wd : Z -> bool) (e : env) (m : message)
  (w : world) :
  exists l,
    w_log (snd (call allowed admins thr pp dig sp wd e m w)) = w_log w ++ l /\
    (deletions l <= 1)%nat.
Proof.
  destruct w as [st lg]; destruct e as [b ml tr dok bok].
  unfold call, privileged, moderate, voice_branch, text_branch, try_delete,
    try_ban, when, bind, ret, emit, stat.
  split_branches; repeat rewrite send_ban_notification_log; simpl;
    repeat rewrite <- app_assoc; simpl;
    first
      [ exists []; rewrite app_nil_r; split; [reflexivity | unfold deletions; simpl; lia]
      | eexists; split; [reflexivity |];
        unfold deletions; simpl; rewrite ?filter_delete_notify; simpl; lia ].
Qed.

Lemma failed_delete_per_chat (allowed admins : list Z) (thr : Q)
  (pp : text -> list Q) (dig sp wd : Z -> bool) (e : env) (m : message)
  (w : world) (k : Z) :
  delete_ok e = false ->
  let c := by_chat_get k (by_chat (w_stats w)) in
  let c' := by_chat_get k
              (by_chat (w_stats (snd (call allowed admins thr pp dig sp wd e m w)))) in
  deleted c' = deleted c /\
  cs_deleted_forbidden_chars c' = cs_deleted_forbidden_chars c /\
  cs_deleted_urls c' = cs_deleted_urls c /\
  cs_deleted_profanity c' = cs_deleted_profanity c.
Proof.
  intros Hd. cbv zeta.
  destruct w as [st lg]; destruct e as [b ml tr dok bok]; simpl in Hd; subst dok.
  unfold call, privileged, moderate, voice_branch, text_branch, try_delete,
    try_ban, when, bind, ret, emit, stat.
  split_branches; repeat rewrite send_ban_notification_log; simpl;
    unfold add_checked, add_banned; simpl; repeat rewrite by_chat_get_update;
    repeat match goal with |- context [Z.eqb ?a ?b] => destruct (Z.eqb_spec a b) end;
    subst; simpl; repeat split.
Qed.

Lemma text_classifier_checked (allowed admins : list Z) (thr : Q)
  (pp : text -> list Q) (dig sp wd : Z -> bool) (e : env) (m : message)
  (w : world) :
  voice_branch admins thr pp dig e m w = (None, w) ->
  chat_kind m <> PRIVATE -> mem (chat_id m) allowed = true ->
  privileged e m = false ->
  truthy (msg_text m) || truthy (caption m) = true ->
  _has_forbidden_chars dig (text_or_caption m) = false ->
  _has_urls sp wd m = false ->
  total_checked (w_stats (snd (call allowed admins thr pp dig sp wd e m w)))
  = S (total_checked (w_stats w)).
Proof.
  intros Hv Hk Ha Hp Ht Hf Hu.
  rewrite call_moderated by assumption.
  unfold moderate. unfold bind at 1. rewrite Hv. cbv iota beta. rewrite Ht.
  unfold text_branch. cbv zeta. rewrite Hf, Hu.
  destruct w as [st lg]; destruct e as [b ml tr dok bok].
  unfold try_delete, try_ban, when, bind, ret, emit, stat.
  split_branches; repeat rewrite send_ban_notification_log; simpl;
    unfold add_deleted, add_banned; simpl; reflexivity.
Qed.

(** C3 (amended): when [event.delete()] fails, the middleware's outcome is
    the one it has when the deletion succeeds (the message is still not
    passed on and nothing escapes), the deletion is attempted at most once
    (nothing is retried), but the deletion is not counted: [total_deleted],
    each deletion category, and the [deleted] count and category counts of
    every chat are unchanged. In the text path (text or caption that passed
    the character and link checks) [checked] is still recorded. *)
Theorem C3_failed_delete_not_counted (allowed admins : list Z) (thr : Q)
  (pp : text -> list Q) (dig sp wd : Z -> bool) (e : env) (m : message)
  (w : world) :
  delete_ok e = false ->
  let '(o, w') := call allowed admins thr pp dig sp wd e m w in
  o = fst (call allowed admins thr pp dig sp wd (with_delete_ok e) m w) /\
  (exists l, w_log w' = w_log w ++ l /\ (deletions l <= 1)%nat) /\
  total_deleted (w_stats w') = total_deleted (w_stats w) /\
  deleted_forbidden_chars (w_stats w') = deleted_forbidden_chars (w_stats w) /\
  deleted_urls (w_stats w') = deleted_urls (w_stats w) /\
  deleted_profanity (w_stats w') = deleted_profanity (w_stats w) /\
  sum_chats deleted (by_chat (w_stats w')) = sum_chats deleted (by_chat (w_stats w)) /\
  (forall k,
     let c := by_chat_get k (by_chat (w_stats w)) in
     let c' := by_chat_get k (by_chat (w_stats w')) in
     deleted c' = deleted c /\
     cs_deleted_forbidden_chars c' = cs_deleted_forbidden_chars c /\
     cs_deleted_urls c' = cs_deleted_urls c /\
     cs_deleted_profanity c' = cs_deleted_profanity c) /\
  (voice_branch admins thr pp dig e m w = (None, w) ->
   chat_kind m <> PRIVATE -> mem (chat_id m) allowed = true ->
   privileged e m = false ->
   truthy (msg_text m) || truthy (caption m) = true ->
   _has_forbidden_chars dig (text_or_caption m) = false ->
   _has_urls sp wd m = false ->
   total_checked (w_stats w') = S (total_checked (w_stats w))).
Proof.
  intros Hd.
  pose proof (failed_delete_totals allowed admins thr pp dig sp wd e m w Hd) as H1.
  destruct (call_one_deletion allowed admins thr pp dig sp wd e m w) as [l H2].
  pose proof (fun k => failed_delete_per_chat allowed admins thr pp dig sp wd e m w k Hd)
    as H3.
  pose proof (text_classifier_checked allowed admins thr pp dig sp wd e m w) as H4.
  destruct (call allowed admins thr pp dig sp wd e m w) as [o w'] eqn:E.
  simpl in H2, H3, H4.
  destruct H1 as (A & B & C & D & F & G).
  repeat split; try assumption.
  - exists l; exact H2.
  - apply H3.
  - apply H3.
  - apply H3.
  - apply H3.
Qed.

(** C3, at a concrete input: the deletion of the Latin text [hello] fails;
    the message is still dropped but no counter records the deletion. *)
Lemma C3_failed_delete_uncounted :
  let '(o, w') := run (fun _ => [0 # 1]) (mk_env true (Some MEMBER) None false true)
                      (text_msg 100 (of_ascii "hello")) start_world in
  o = Dropped /\ w_log w' = [DeleteMessage 100] /\
  total_deleted (w_stats w') = 0%nat /\ deleted_forbidden_chars (w_stats w') = 0%nat.
Proof. vm_compute; repeat split. Qed.

Lemma C3_failed_delete_not_counted_witness :
  let e := mk_env true (Some MEMBER) None false true in
  let m := text_msg 100 privet in
  let pp := fun _ : text => [9 # 10] in
  let '(o, w') := call [100] [1] (7 # 10) pp isdigit_basic
                    isspace_basic isword_basic e m start_world in
  o = fst (call [100] [1] (7 # 10) pp isdigit_basic
             isspace_basic isword_basic (with_delete_ok e) m start_world) /\
  (exists l, w_log w' = w_log start_world ++ l /\ (deletions l <= 1)%nat) /\
  total_deleted (w_stats w') = total_deleted (w_stats start_world) /\
  deleted_forbidden_chars (w_stats w') = deleted_forbidden_chars (w_stats start_world) /\
  deleted_urls (w_stats w') = deleted_urls (w_stats start_world) /\
  deleted_profanity (w_stats w') = deleted_profanity (w_stats start_world) /\
  sum_chats deleted (by_chat (w_stats w'))
  = sum_chats deleted (by_chat (w_stats start_world)) /\
  (forall k,
     let c := by_chat_get k (by_chat (w_stats start_world)) in
     let c' := by_chat_get k (by_chat (w_stats w')) in
     deleted c' = deleted c /\
     cs_deleted_forbidden_chars c' = cs_deleted_forbidden_chars c /\
     cs_deleted_urls c' = cs_deleted_urls c /\
     cs_deleted_profanity c' = cs_deleted_profanity c) /\
  total_checked (w_stats w') = S (total_checked (w_stats start_world)).
Proof.
  intros e m pp.
  pose proof (C3_failed_delete_not_counted [100] [1] (7 # 10) pp
                isdigit_basic isspace_basic isword_basic e m start_world
                eq_refl) as H.
  destruct (call [100] [1] (7 # 10) pp isdigit_basic isspace_basic isword_basic
              e m start_world) as [o w'] eqn:E.
  destruct H as (A & B & C & D & F & G & I & J & K).
  repeat split; try assumption.
  - apply J.
  - apply J.
  - apply J.
  - apply J.
  - apply K; first [reflexivity | discriminate].
Defined.

End Claims.

(** ** Further properties of the code *)

Module Extras.
Import Stats Middleware Pipeline Inputs PyText.

Lemma split_on_not_nil (sep : Z) (s : text) : split_on sep s <> [].
Proof.
  induction s as [| c r IH]; simpl; [discriminate |].
  destruct (Z.eqb c sep); [discriminate |].
  destruct (split_on sep r); [congruence | discriminate].
Qed.

Lemma split_on_app (sep : Z) (a b : text) :
  split_on sep (a ++ sep :: b) = split_on sep a ++ split_on sep b.
Proof.
  induction a as [| c a IH]; simpl.
  - rewrite Z.eqb_refl; reflexivity.
  - rewrite IH. destruct (Z.eqb c sep); [reflexivity |].
    destruct (split_on sep a) as [| h t] eqn:E.
    + exfalso; exact (split_on_not_nil sep a E).
    + reflexivity.
Qed.

Lemma split_on_no_sep (sep : Z) (a : text) :
  ~ In sep a -> split_on sep a = [a].
Proof.
  induction a as [| c a IH]; intros Hn; simpl; [reflexivity |].
  destruct (Z.eqb c sep) eqn:E.
  - apply Z.eqb_eq in E; subst; exfalso; apply Hn; left; reflexivity.
  - rewrite IH; [reflexivity | intro H; apply Hn; right; exact H].
Qed.

Definition digit_char (c : Z) : Prop := 48 <= c <= 57.

Lemma rev_digits_chars (f : nat) (n : Z) :
  0 <= n -> Forall digit_char (rev_digits f n).
Proof.
  revert n; induction f as [| f IH]; intros n Hn; cbn [rev_digits]; [constructor |].
  destruct (n <? 10) eqn:E.
  - apply Z.ltb_lt in E; constructor; [unfold digit_char; lia | constructor].
  - apply Z.ltb_ge in E; constructor.
    + unfold digit_char; pose proof (Z.mod_pos_bound n 10); lia.
    + apply IH; apply Z.div_pos; lia.
Qed.

Lemma rev_digits_not_nil (f : nat) (n : Z) : rev_digits (S f) n <> [].
Proof. simpl; destruct (n <? 10); discriminate. Qed.

Section Digits.
Variable digit_value : Z -> option Z.
Hypothesis Hdv : forall d, 0 <= d <= 9 -> digit_value (48 + d) = Some d.

Lemma rev_digits_value (f : nat) (n acc : Z) (rest : text) :
  0 <= n < 2 ^ Z.of_nat f ->
  exists k : nat,
    digits_tail digit_value acc false (rev (rev_digits f n) ++ rest)
    = digits_tail digit_value (acc * 10 ^ Z.of_nat k + n) false rest.
Proof.
  revert n acc rest; induction f as [| f IH]; intros n acc rest Hn.
  - simpl in Hn. exists 0%nat. cbn [rev_digits rev app].
    replace (acc * 10 ^ Z.of_nat 0 + n) with acc by (simpl; lia). reflexivity.
  - cbn [rev_digits]. destruct (n <? 10) eqn:E.
    + apply Z.ltb_lt in E. exists 1%nat. cbn [rev app digits_tail].
      replace (48 + n =? 95) with false by (symmetry; apply Z.eqb_neq; lia).
      rewrite Hdv by lia. f_equal.
    + apply Z.ltb_ge in E.
      assert (Hq : 0 <= n / 10 < 2 ^ Z.of_nat f).
      { split; [apply Z.div_pos; lia |].
        rewrite Nat2Z.inj_succ, Z.pow_succ_r in Hn by lia.
        apply Z.div_lt_upper_bound; lia. }
      cbn [rev]. rewrite <- app_assoc; cbn [app].
      destruct (IH (n / 10) acc ((48 + n mod 10) :: rest) Hq) as [k Hk].
      rewrite Hk. exists (S k). cbn [digits_tail].
      pose proof (Z.mod_pos_bound n 10) as Hm.
      replace (48 + n mod 10 =? 95) with false by (symmetry; apply Z.eqb_neq; lia).
      rewrite Hdv by lia. f_equal.
      rewrite Nat2Z.inj_succ, Z.pow_succ_r by lia.
      pose proof (Z.div_mod n 10 ltac:(lia)). nia.
Qed.
End Digits.

Lemma str_nonneg_fuel (n : Z) :
  0 <= n -> 0 <= n < 2 ^ Z.of_nat (S (Z.to_nat (Z.log2 n))).
Proof.
  intros Hn. split; [exact Hn |].
  rewrite Nat2Z.inj_succ, Z2Nat.id by apply Z.log2_nonneg.
  destruct (Z.eq_dec n 0) as [-> | Hne]; [reflexivity |].
  apply Z.log2_spec; lia.
Qed.

Lemma str_nonneg_chars (n : Z) : 0 <= n -> Forall digit_char (str_nonneg n).
Proof.
  intros Hn; unfold str_nonneg; apply Forall_rev, rev_digits_chars, Hn.
Qed.

Lemma str_nonneg_not_nil (n : Z) : str_nonneg n <> [].
Proof.
  unfold str_nonneg; intro H.
  apply (rev_digits_not_nil (Z.to_nat (Z.log2 n)) n).
  rewrite <- (rev_involutive (rev_digits _ n)), H; reflexivity.
Qed.

Section Roundtrip.
Variable isspace : Z -> bool.
Variable digit_value : Z -> option Z.
Hypothesis Hdv : forall d, 0 <= d <= 9 -> digit_value (48 + d) = Some d.
Hypothesis Hsp : forall c, c = 45 \/ digit_char c -> isspace c = false.

Lemma parse_str_nonneg (n : Z) :
  0 <= n -> parse_digits digit_value (str_nonneg n) = Some n.
Proof.
  intros Hn.
  destruct (rev_digits_value digit_value Hdv (S (Z.to_nat (Z.log2 n))) n 0 []
              (str_nonneg_fuel n Hn)) as [k Hk].
  rewrite app_nil_r in Hk. fold (str_nonneg n) in Hk.
  replace (0 * 10 ^ Z.of_nat k + n) with n in Hk by lia.
  cbn [digits_tail] in Hk.
  pose proof (str_nonneg_chars n Hn) as Hc.
  destruct (str_nonneg n) as [| c r] eqn:E; [exfalso; exact (str_nonneg_not_nil n E) |].
  inversion Hc as [| ? ? Hc0 _]; subst. unfold digit_char in Hc0.
  unfold parse_digits. cbn [digits_tail] in Hk.
  replace (c =? 95) with false in Hk by (symmetry; apply Z.eqb_neq; lia).
  replace c with (48 + (c - 48)) in Hk |- * by lia.
  rewrite Hdv in Hk |- * by lia.
  replace (0 * 10 + (c - 48)) with (c - 48) in Hk by lia.
  exact Hk.
Qed.

Lemma drop_space_id (s : text) :
  Forall (fun c => isspace c = false) s -> drop_space isspace s = s.
Proof.
  destruct s as [| c r]; intros H; [reflexivity |].
  inversion H; subst; simpl. match goal with H : isspace c = false |- _ => rewrite H end.
  reflexivity.
Qed.

Lemma strip_id (s : text) :
  Forall (fun c => isspace c = false) s -> strip isspace s = s.
Proof.
  intros H; unfold strip.
  rewrite (drop_space_id s H), (drop_space_id (rev s)) by (apply Forall_rev; exact H).
  apply rev_involutive.
Qed.

Lemma py_str_chars (z : Z) :
  Forall (fun c => c = 45 \/ digit_char c) (py_str z).
Proof.
  unfold py_str. destruct (z <? 0) eqn:E.
  - apply Z.ltb_lt in E. constructor; [left; reflexivity |].
    eapply Forall_impl; [| apply str_nonneg_chars; lia]. intros; right; assumption.
  - apply Z.ltb_ge in E.
    eapply Forall_impl; [| apply str_nonneg_chars; lia]. intros; right; assumption.
Qed.

Lemma py_str_no_space (z : Z) : Forall (fun c => isspace c = false) (py_str z).
Proof. eapply Forall_impl; [| apply py_str_chars]. intros; apply Hsp; assumption. Qed.

Lemma py_int_py_str (z : Z) : py_int isspace digit_value (py_str z) = Some z.
Proof.
  unfold py_int. rewrite strip_id by apply py_str_no_space.
  unfold py_str. destruct (z <? 0) eqn:E.
  - apply Z.ltb_lt in E. cbn [Z.eqb]. simpl (45 =? 43).
    rewrite parse_str_nonneg by lia. simpl. f_equal; lia.
  - apply Z.ltb_ge in E.
    pose proof (str_nonneg_chars z E) as Hc.
    destruct (str_nonneg z) as [| c r] eqn:S0; [exfalso; exact (str_nonneg_not_nil z S0) |].
    inversion Hc as [| ? ? Hc0 _]; subst. unfold digit_char in Hc0.
    replace (c =? 43) with false by (symmetry; apply Z.eqb_neq; lia).
    replace (c =? 45) with false by (symmetry; apply Z.eqb_neq; lia).
    rewrite <- S0. apply parse_str_nonneg; exact E.
Qed.

Lemma py_str_not_nil (z : Z) : py_str z <> [].
Proof.
  unfold py_str; destruct (z <? 0); [discriminate | apply str_nonneg_not_nil].
Qed.

Lemma py_str_not_in (k z : Z) : k <> 45 -> ~ digit_char k -> ~ In k (py_str z).
Proof.
  intros H1 H2 Hin.
  pose proof (proj1 (Forall_forall _ _) (py_str_chars z) k Hin) as [H | H]; auto.
Qed.

Lemma split_unban_data (c u : Z) :
  split_on 95 (Callbacks.unban_callback_data c u)
  = [[117; 110; 98; 97; 110]; py_str c; py_str u].
Proof.
  unfold Callbacks.unban_callback_data.
  change (Callbacks.unban_prefix ++ py_str c ++ 95 :: py_str u)
    with ([117; 110; 98; 97; 110] ++ 95 :: (py_str c ++ 95 :: py_str u)).
  rewrite !split_on_app.
  rewrite (split_on_no_sep 95 (py_str c)), (split_on_no_sep 95 (py_str u))
    by (apply py_str_not_in; [discriminate | unfold digit_char; lia]).
  reflexivity.
Qed.

(** X1: the [callback_data] [f"unban_{chat_id}_{user_id}"] of the button
    built by [_send_ban_notification] passes the router filter of
    [handle_unban_callback], and the handler's first call unbans exactly
    that user in exactly that chat, for every pair of ids (negative
    supergroup ids included); no other unban follows, whatever the answers,
    the unban and the reading of the notification text do. When the unban
    and its answer succeed and the notification text is readable, the
    handler answers without alert, edits the notification with the
    unbanned line appended, and returns normally. *)
Theorem unban_button_roundtrip (answer_ok : Callbacks.answer -> bool) (c u : Z)
  (unban_ok : bool) (original : option text) :
  Callbacks.unban_filter (Some (Callbacks.unban_callback_data c u)) = true /\
  (exists rest,
     fst (Callbacks.handle_unban_callback isspace digit_value answer_ok unban_ok
            original (Callbacks.unban_callback_data c u))
     = Callbacks.UnbanChatMember c u :: rest /\
     forall c' u', ~ In (Callbacks.UnbanChatMember c' u') rest) /\
  (unban_ok = true -> answer_ok Callbacks.AnsUnbanned = true ->
   forall t, original = Some t ->
   Callbacks.handle_unban_callback isspace digit_value answer_ok unban_ok
     original (Callbacks.unban_callback_data c u)
   = ([Callbacks.UnbanChatMember c u;
       Callbacks.Answer Callbacks.AnsUnbanned false;
       Callbacks.EditText (t ++ Callbacks.unbanned_suffix)], false)).
Proof.
  split; [| split].
  - unfold Callbacks.unban_filter, Callbacks.unban_callback_data.
    cbn [Callbacks.unban_prefix app Callbacks.starts_with]. reflexivity.
  - unfold Callbacks.handle_unban_callback. rewrite split_unban_data.
    cbn [List.length Nat.eqb negb].
    rewrite !py_int_py_str. eexists; split; [reflexivity |].
    intros c' u'.
    unfold Callbacks.answer_or, Callbacks.prepend.
    destruct unban_ok, (answer_ok Callbacks.AnsUnbanned),
      (answer_ok Callbacks.AnsUnbanError), (answer_ok Callbacks.AnsError),
      original; simpl; intuition discriminate.
  - intros -> Ha t ->.
    unfold Callbacks.handle_unban_callback. rewrite split_unban_data.
    cbn [List.length Nat.eqb negb].
    rewrite !py_int_py_str, Ha. reflexivity.
Qed.

End Roundtrip.

(** Python's [str.isspace] is false on [-] and on the ASCII digits, and
    [unicodedata.decimal] gives their value. *)
Lemma ascii_digit_value_ok (d : Z) :
  0 <= d <= 9 -> Inputs.ascii_digit_value (48 + d) = Some d.
Proof.
  intros Hd; unfold Inputs.ascii_digit_value, in_range.
  replace ((48 <=? 48 + d) && (48 + d <=? 57)) with true
    by (symmetry; apply andb_true_intro; split; apply Z.leb_le; lia).
  f_equal; lia.
Qed.

Lemma isspace_basic_ok (c : Z) :
  c = 45 \/ digit_char c -> Inputs.isspace_basic c = false.
Proof.
  intros H; unfold digit_char in H; unfold Inputs.isspace_basic, mem; cbn [existsb].
  repeat rewrite (proj2 (Z.eqb_neq _ _)) by lia; reflexivity.
Qed.

Lemma unban_button_roundtrip_witness :
  let data := Callbacks.unban_callback_data (-1001234567890) 55 in
  Callbacks.unban_filter (Some data) = true /\
  Callbacks.handle_unban_callback Inputs.isspace_basic Inputs.ascii_digit_value
    (fun _ => true) true (Some []) data
  = ([Callbacks.UnbanChatMember (-1001234567890) 55;
      Callbacks.Answer Callbacks.AnsUnbanned false;
      Callbacks.EditText ([] ++ Callbacks.unbanned_suffix)], false).
Proof.
  intros data.
  destruct (unban_button_roundtrip Inputs.isspace_basic Inputs.ascii_digit_value
              ascii_digit_value_ok isspace_basic_ok (fun _ => true)
              (-1001234567890) 55 true (Some [])) as (A & _ & C).
  split; [exact A | exact (C eq_refl eq_refl [] eq_refl)].
Defined.

Section Handler.
Import Callbacks.
Variable isspace : Z -> bool.
Variable digit_value : Z -> option Z.

(** X2: [handle_unban_callback] calls [unban_chat_member] for [(c, u)]
    exactly when [callback.data.split("_")] has three parts whose second
    and third parse as the integers [c] and [u]; every other data (a chat
    or user id containing [_], a missing or extra part, an id that is not
    an integer) unbans nobody. *)
Theorem unban_only_on_valid_data (answer_ok : answer -> bool) (unban_ok : bool)
  (original : option text) (data : text) (c u : Z) :
  In (UnbanChatMember c u)
     (fst (handle_unban_callback isspace digit_value answer_ok unban_ok original data)) <->
  exists p0 p1 p2, split_on 95 data = [p0; p1; p2] /\
    py_int isspace digit_value p1 = Some c /\
    py_int isspace digit_value p2 = Some u.
Proof.
  unfold handle_unban_callback, answer_or, prepend.
  destruct (split_on 95 data) as [| p0 [| p1 [| p2 [| p3 r]]]];
    cbn [List.length Nat.eqb negb];
    try (split; [destruct (answer_ok AnsBadFormat), (answer_ok AnsError);
                 simpl; intuition discriminate
                | intros (? & ? & ? & H & _); discriminate]).
  destruct (py_int isspace digit_value p1) as [c' |] eqn:E1;
    [destruct (py_int isspace digit_value p2) as [u' |] eqn:E2 |].
  - split.
    + intros [H | H].
      * injection H as -> ->. exists p0, p1, p2. auto.
      * destruct unban_ok, (answer_ok AnsUnbanned), (answer_ok AnsUnbanError),
          (answer_ok AnsError), original; simpl in H; intuition discriminate.
    + intros (q0 & q1 & q2 & E & F1 & F2). injection E as -> -> ->.
      rewrite E1 in F1; rewrite E2 in F2. injection F1 as ->. injection F2 as ->.
      left; reflexivity.
  - split; [destruct (answer_ok AnsError); simpl; intuition discriminate |].
    intros (q0 & q1 & q2 & E & F1 & F2). injection E as -> -> ->. congruence.
  - split; [destruct (answer_ok AnsError); simpl; intuition discriminate |].
    intros (q0 & q1 & q2 & E & F1 & F2). injection E as -> -> ->. congruence.
Qed.

Definition is_answer (x : cb_call) : bool :=
  match x with Answer _ _ => true | _ => false end.

(** An answer that Telegram accepted. *)
Definition answered_ok (answer_ok : answer -> bool) (x : cb_call) : bool :=
  match x with Answer a _ => answer_ok a | _ => false end.

Ltac cb_close ok :=
  simpl;
  repeat (match goal with |- context [ok ?a] => destruct (ok a) eqn:? end; simpl);
  repeat split; intros; simpl in *; try lia; try congruence;
  try (repeat match goal with H : _ \/ _ |- _ => destruct H as [H | H] end;
       try discriminate; try contradiction;
       match goal with H : EditText _ = EditText _ |- _ => injection H as <- end;
       repeat split; try reflexivity; eexists; split; reflexivity);
  auto 10.

(** X3: every run of [handle_unban_callback] attempts at most three
    answers. An exception escapes only after the generic error answer was
    attempted and failed; every other run has at least one answer that
    Telegram accepted. Two accepted answers happen only on the path where
    the unban and its answer succeeded but the notification text could not
    be read, which sends the unban-error answer as well. The notification
    is edited only after a successful unban whose answer succeeded and
    whose text was readable, and the new text is that text followed by the
    unbanned line. *)
Theorem unban_answers_once (answer_ok : answer -> bool) (unban_ok : bool)
  (original : option text) (data : text) :
  let r := handle_unban_callback isspace digit_value answer_ok unban_ok original data in
  let n := List.length (filter (answered_ok answer_ok) (fst r)) in
  (List.length (filter is_answer (fst r)) <= 3)%nat /\
  (snd r = true -> In (Answer AnsError true) (fst r) /\ answer_ok AnsError = false) /\
  (snd r = false -> (1 <= n)%nat) /\
  (n <= 2)%nat /\
  ((2 <= n)%nat ->
   unban_ok = true /\ answer_ok AnsUnbanned = true /\ original = None) /\
  (forall t, In (EditText t) (fst r) ->
   unban_ok = true /\ answer_ok AnsUnbanned = true /\
   exists o, original = Some o /\ t = o ++ unbanned_suffix).
Proof.
  cbv zeta. unfold handle_unban_callback, answer_or, prepend.
  destruct (split_on 95 data) as [| p0 [| p1 [| p2 [| p3 rest]]]];
    cbn [List.length Nat.eqb negb]; try (cb_close answer_ok; fail).
  destruct (py_int isspace digit_value p1);
    [destruct (py_int isspace digit_value p2) |]; try (cb_close answer_ok; fail).
  destruct unban_ok, original; cb_close answer_ok.
Qed.

End Handler.

Lemma unban_answers_once_witness :
  let r := Callbacks.handle_unban_callback Inputs.isspace_basic
             Inputs.ascii_digit_value (fun _ => true) true None
             (Inputs.of_ascii "unban_1_2") in
  let n := List.length (filter (answered_ok (fun _ => true)) (fst r)) in
  (List.length (filter is_answer (fst r)) <= 3)%nat /\
  (snd r = true ->
   In (Callbacks.Answer Callbacks.AnsError true) (fst r) /\ true = false) /\
  (snd r = false -> (1 <= n)%nat) /\
  (n <= 2)%nat /\
  ((2 <= n)%nat -> true = true /\ true = true /\ @None text = None) /\
  (forall t, In (Callbacks.EditText t) (fst r) ->
   true = true /\ true = true /\
   exists o, @None text = Some o /\ t = o ++ Callbacks.unbanned_suffix).
Proof.
  exact (unban_answers_once Inputs.isspace_basic Inputs.ascii_digit_value
           (fun _ => true) true None (Inputs.of_ascii "unban_1_2")).
Defined.

Lemma length_rev_digits (f : nat) (n k : Z) :
  0 <= n < 10 ^ k -> 1 <= k -> Z.of_nat (List.length (rev_digits f n)) <= k.
Proof.
  revert n k; induction f as [| f IH]; intros n k Hn Hk; cbn [rev_digits].
  - simpl; lia.
  - destruct (n <? 10) eqn:E.
    + simpl; lia.
    + apply Z.ltb_ge in E.
      destruct (Z.eq_dec k 1) as [-> | Hk1]; [simpl in Hn; lia |].
      cbn [List.length]. rewrite Nat2Z.inj_succ.
      assert (Hq : 0 <= n / 10 < 10 ^ (k - 1)).
      { split; [apply Z.div_pos; lia |].
        apply Z.div_lt_upper_bound; [lia |].
        rewrite <- Z.pow_succ_r by lia. replace (Z.succ (k - 1)) with k by lia.
        lia. }
      pose proof (IH (n / 10) (k - 1) Hq ltac:(lia)). lia.
Qed.

Lemma length_py_str (z : Z) :
  - 10 ^ 19 < z < 10 ^ 19 -> (List.length (py_str z) <= 20)%nat.
Proof.
  intros Hz. unfold py_str, str_nonneg.
  destruct (z <? 0) eqn:E.
  - apply Z.ltb_lt in E. cbn [List.length]. rewrite length_rev.
    pose proof (length_rev_digits (S (Z.to_nat (Z.log2 (- z)))) (- z) 19
                  ltac:(lia) ltac:(lia)). lia.
  - apply Z.ltb_ge in E. rewrite length_rev.
    pose proof (length_rev_digits (S (Z.to_nat (Z.log2 z))) z 19
                  ltac:(lia) ltac:(lia)). lia.
Qed.

(** X4: for any two ids in Python's usual 64-bit range (Telegram chat and
    user ids), the [callback_data] [f"unban_{chat_id}_{user_id}"] is ASCII
    and at most 47 characters long, within Telegram's 64-byte limit on
    [callback_data]. *)
Theorem unban_callback_data_fits (c u : Z) :
  - 2 ^ 63 <= c < 2 ^ 63 -> - 2 ^ 63 <= u < 2 ^ 63 ->
  (List.length (Callbacks.unban_callback_data c u) <= 47)%nat /\
  Forall (fun x => 0 <= x < 128) (Callbacks.unban_callback_data c u).
Proof.
  intros Hc Hu.
  assert (Hb : 2 ^ 63 < 10 ^ 19) by (unfold Z.lt; reflexivity).
  unfold Callbacks.unban_callback_data. split.
  - rewrite length_app; cbn [List.length Callbacks.unban_prefix].
    rewrite length_app; cbn [List.length].
    pose proof (length_py_str c ltac:(lia)). pose proof (length_py_str u ltac:(lia)).
    lia.
  - assert (Hp : forall z, Forall (fun x => 0 <= x < 128) (py_str z)).
    { intros z; eapply Forall_impl; [| apply py_str_chars].
      intros x [-> | H]; [lia | unfold digit_char in H; lia]. }
    apply Forall_app; split.
    + unfold Callbacks.unban_prefix; repeat constructor; lia.
    + apply Forall_app; split; [apply Hp | constructor; [lia | apply Hp]].
Qed.

Lemma unban_callback_data_fits_witness :
  (List.length (Callbacks.unban_callback_data (- 2 ^ 63) (2 ^ 63 - 1)) <= 47)%nat /\
  Forall (fun x => 0 <= x < 128)
    (Callbacks.unban_callback_data (- 2 ^ 63) (2 ^ 63 - 1)).
Proof.
  apply unban_callback_data_fits; lia.
Defined.

Lemma split_join (sep : Z) (ps : list text) :
  ps <> [] -> (forall p, In p ps -> ~ In sep p) ->
  split_on sep (join_on sep ps) = ps.
Proof.
  induction ps as [| p ps IH]; intros Hne Hs; [congruence |].
  destruct ps as [| p' ps].
  - apply split_on_no_sep, Hs; left; reflexivity.
  - change (join_on sep (p :: p' :: ps)) with (p ++ sep :: join_on sep (p' :: ps)).
    rewrite split_on_app, split_on_no_sep by (apply Hs; left; reflexivity).
    rewrite IH; [reflexivity | discriminate |].
    intros q Hq; apply Hs; right; exact Hq.
Qed.

Lemma split_on_pieces (sep : Z) (s p : text) (c : Z) :
  In p (split_on sep s) -> In c p -> In c s /\ c <> sep.
Proof.
  revert p; induction s as [| x s IH]; intros p Hp Hc; simpl in Hp.
  - destruct Hp as [<- | []]; destruct Hc.
  - destruct (Z.eqb x sep) eqn:Ex.
    + destruct Hp as [<- | Hp]; [destruct Hc |].
      destruct (IH p Hp Hc); split; [right |]; assumption.
    + destruct (split_on sep s) as [| h t] eqn:E.
      * exfalso; exact (split_on_not_nil sep s E).
      * destruct Hp as [<- | Hp].
        -- destruct Hc as [<- | Hc].
           ++ split; [left; reflexivity | apply Z.eqb_neq; exact Ex].
           ++ destruct (IH h (or_introl eq_refl) Hc); split; [right |]; assumption.
        -- destruct (IH p (or_intror Hp) Hc); split; [right |]; assumption.
Qed.

Section Config.
Import ConfigParse.
Variable isspace : Z -> bool.
Variable digit_value : Z -> option Z.

Lemma parse_items_app (xs ys : list text) :
  parse_items isspace digit_value (xs ++ ys)
  = match parse_items isspace digit_value xs, parse_items isspace digit_value ys with
    | Some a, Some b => Some (a ++ b)
    | _, _ => None
    end.
Proof.
  induction xs as [| x xs IH]; simpl.
  - destruct (parse_items isspace digit_value ys); reflexivity.
  - destruct (strip isspace x) as [| c cs]; [exact IH |].
    rewrite IH.
    destruct (py_int isspace digit_value (c :: cs));
      destruct (parse_items isspace digit_value xs);
      destruct (parse_items isspace digit_value ys); reflexivity.
Qed.

(** X6: the id lists of [config.py] compose over a comma: parsing
    [a + "," + b] gives the ids of [a] followed by those of [b], and fails
    ([ValueError]) exactly when one of the two parts fails. *)
Theorem parse_id_list_comma (a b : text) :
  parse_id_list isspace digit_value (a ++ 44 :: b)
  = match parse_id_list isspace digit_value a, parse_id_list isspace digit_value b with
    | Some x, Some y => Some (x ++ y)
    | _, _ => None
    end.
Proof. unfold parse_id_list; rewrite split_on_app; apply parse_items_app. Qed.

Lemma drop_space_all (s : text) :
  forallb isspace s = true -> drop_space isspace s = [].
Proof.
  induction s as [| c s IH]; simpl; [reflexivity |].
  intros H; apply andb_prop in H as [-> H]; exact (IH H).
Qed.

Lemma strip_all_space (s : text) :
  forallb isspace s = true -> strip isspace s = [].
Proof. intros H; unfold strip; rewrite (drop_space_all s H); reflexivity. Qed.

(** X7: a non-empty variable made only of commas and whitespace gives no
    id: the optional [EXEMPT_SENDER_CHAT_IDS] is then the empty list, and
    the required [ALLOWED_CHAT_IDS] and [ADMIN_IDS] pass their not-found
    check but raise the [ValueError] of their emptiness check. An unset or
    empty variable instead raises the [ValueError] of the not-found check. *)
Theorem blank_id_list (s : text) :
  s <> [] ->
  forallb (fun c => Z.eqb c 44 || isspace c) s = true ->
  parse_id_list isspace digit_value s = Some [] /\
  load_optional_ids isspace digit_value (Some s) = Some [] /\
  load_required_ids isspace digit_value (Some s) = EmptyList /\
  load_required_ids isspace digit_value None = NotFound /\
  load_required_ids isspace digit_value (Some []) = NotFound.
Proof.
  intros Hne Hs.
  assert (Hp : parse_id_list isspace digit_value s = Some []).
  { unfold parse_id_list.
    assert (Hall : forall p, In p (split_on 44 s) -> forallb isspace p = true).
    { intros p Hp; apply forallb_forall; intros c Hc.
      destruct (split_on_pieces 44 s p c Hp Hc) as [Hin Hne'].
      pose proof (proj1 (forallb_forall _ _) Hs c Hin) as Hc'.
      apply Z.eqb_neq in Hne'; simpl in Hc'; rewrite Hne' in Hc'; exact Hc'. }
    induction (split_on 44 s) as [| p ps IH]; simpl; [reflexivity |].
    rewrite strip_all_space by (apply Hall; left; reflexivity).
    apply IH; intros q Hq; apply Hall; right; exact Hq. }
  split; [exact Hp |]. split; [exact Hp |].
  split; [| split; reflexivity].
  unfold load_required_ids; destruct s as [| c r]; [congruence |].
  rewrite Hp; reflexivity.
Qed.

Hypothesis Hdv : forall d, 0 <= d <= 9 -> digit_value (48 + d) = Some d.
Hypothesis Hsp : forall c, c = 45 \/ digit_char c -> isspace c = false.

Lemma parse_items_py_str (l : list Z) :
  parse_items isspace digit_value (map py_str l) = Some l.
Proof.
  induction l as [| z l IH]; simpl; [reflexivity |].
  rewrite strip_id by apply (py_str_no_space isspace Hsp).
  pose proof (py_int_py_str isspace digit_value Hdv Hsp z) as Hz.
  destruct (py_str z) as [| c r] eqn:E; [exfalso; exact (py_str_not_nil z E) |].
  rewrite Hz, IH; reflexivity.
Qed.

(** X5: writing a list of ids as [",".join(map(str, ids))] and reading it
    back with the parsing of [config.py] gives the same list, negative
    chat ids included; a non-empty list passes the checks of the required
    lists. *)
Theorem id_list_roundtrip (l : list Z) :
  parse_id_list isspace digit_value (join_on 44 (map py_str l)) = Some l /\
  (l <> [] ->
   load_required_ids isspace digit_value (Some (join_on 44 (map py_str l))) = Loaded l).
Proof.
  assert (Hp : parse_id_list isspace digit_value (join_on 44 (map py_str l)) = Some l).
  { unfold parse_id_list. destruct l as [| z l]; [reflexivity |].
    rewrite split_join; [apply parse_items_py_str | discriminate |].
    intros p Hp; apply in_map_iff in Hp as (x & <- & _).
    apply py_str_not_in; [discriminate | unfold digit_char; lia]. }
  split; [exact Hp |].
  intros Hne; unfold load_required_ids.
  destruct l as [| z l]; [congruence |].
  assert (Hj : join_on 44 (map py_str (z :: l)) <> []).
  { cbn [map join_on]. destruct (map py_str l).
    - apply py_str_not_nil.
    - pose proof (py_str_not_nil z). destruct (py_str z); [congruence | discriminate]. }
  destruct (join_on 44 (map py_str (z :: l))) as [| c r] eqn:E; [congruence |].
  rewrite Hp; reflexivity.
Qed.

End Config.

Lemma blank_id_list_witness :
  [44; 32; 44; 9] <> [] /\
  forallb (fun c => Z.eqb c 44 || Inputs.isspace_basic c) [44; 32; 44; 9] = true /\
  (ConfigParse.parse_id_list Inputs.isspace_basic Inputs.ascii_digit_value [44; 32; 44; 9]
     = Some [] /\
   ConfigParse.load_optional_ids Inputs.isspace_basic Inputs.ascii_digit_value
     (Some [44; 32; 44; 9]) = Some [] /\
   ConfigParse.load_required_ids Inputs.isspace_basic Inputs.ascii_digit_value
     (Some [44; 32; 44; 9]) = ConfigParse.EmptyList /\
   ConfigParse.load_required_ids Inputs.isspace_basic Inputs.ascii_digit_value None
     = ConfigParse.NotFound /\
   ConfigParse.load_required_ids Inputs.isspace_basic Inputs.ascii_digit_value (Some [])
     = ConfigParse.NotFound).
Proof.
  split; [discriminate |]. split; [reflexivity |].
  apply blank_id_list; [discriminate | reflexivity].
Defined.

Lemma id_list_roundtrip_witness :
  ConfigParse.parse_id_list Inputs.isspace_basic Inputs.ascii_digit_value
    (join_on 44 (map py_str [-1001234567890; 100])) = Some [-1001234567890; 100] /\
  ([-1001234567890; 100] <> [] ->
   ConfigParse.load_required_ids Inputs.isspace_basic Inputs.ascii_digit_value
     (Some (join_on 44 (map py_str [-1001234567890; 100])))
   = ConfigParse.Loaded [-1001234567890; 100]).
Proof.
  exact (id_list_roundtrip Inputs.isspace_basic Inputs.ascii_digit_value
           ascii_digit_value_ok isspace_basic_ok [-1001234567890; 100]).
Defined.

Ltac decide_bounds :=
  repeat match goal with
  | |- context [Z.eqb ?a ?b] =>
      first [ rewrite (proj2 (Z.eqb_neq a b)) by lia
            | rewrite (proj2 (Z.eqb_eq a b)) by lia ]
  | |- context [Z.leb ?a ?b] =>
      first [ rewrite (proj2 (Z.leb_le a b)) by lia
            | rewrite (proj2 (Z.leb_gt a b)) by lia ]
  end.

Section Chars.
Variable isdigit : Z -> bool.
(** [str.isdigit] is false on Latin letters and on the special characters
    of [forbidden_special_chars_pattern]. *)
Hypothesis Hdig : forall c,
  is_latin c = true \/ mem c forbidden_special_chars = true -> isdigit c = false.

Lemma latin_not_allowed (c : Z) : is_latin c = true -> char_allowed isdigit c = false.
Proof.
  intros H. pose proof (Hdig c (or_introl H)) as Hd.
  unfold is_latin, in_range in H.
  apply orb_true_iff in H as [H | H]; apply andb_true_iff in H as [H1 H2];
    apply Z.leb_le in H1; apply Z.leb_le in H2;
    unfold char_allowed, in_range, mem, allowed_punctuation, is_emoji, in_range;
    cbn [existsb]; rewrite Hd; decide_bounds; reflexivity.
Qed.

Lemma special_not_allowed (c : Z) :
  mem c forbidden_special_chars = true -> char_allowed isdigit c = false.
Proof.
  intros H. pose proof (Hdig c (or_intror H)) as Hd.
  unfold mem, forbidden_special_chars in H; cbn [existsb] in H.
  repeat (apply orb_true_iff in H as [H | H]; [apply Z.eqb_eq in H; subst c;
    unfold char_allowed; rewrite Hd; reflexivity |]).
  discriminate.
Qed.

(** X8: the three stages of [_has_forbidden_chars] (Latin letters, the
    special-character pattern, the per-character loop) amount to the loop
    alone: a text is rejected exactly when one of its characters is outside
    the allowed set (Cyrillic, digits, the allowed punctuation, emoji); in
    particular the check of a concatenation is the disjunction of the
    checks of its parts. *)
Theorem forbidden_chars_per_char (t u : text) :
  _has_forbidden_chars isdigit t = existsb (fun c => negb (char_allowed isdigit c)) t /\
  _has_forbidden_chars isdigit (t ++ u)
  = _has_forbidden_chars isdigit t || _has_forbidden_chars isdigit u.
Proof.
  assert (Hg : forall t, _has_forbidden_chars isdigit t
                         = existsb (fun c => negb (char_allowed isdigit c)) t).
  { intros s; unfold _has_forbidden_chars.
    destruct s as [| c0 r]; [reflexivity |].
    destruct (existsb is_latin (c0 :: r)) eqn:L.
    - apply existsb_exists in L as (c & Hc & Hl). symmetry; apply existsb_exists.
      exists c; split; [exact Hc | rewrite latin_not_allowed by exact Hl; reflexivity].
    - destruct (existsb (fun c => mem c forbidden_special_chars) (c0 :: r)) eqn:F;
        [| reflexivity].
      apply existsb_exists in F as (c & Hc & Hl). symmetry; apply existsb_exists.
      exists c; split; [exact Hc | rewrite special_not_allowed by exact Hl; reflexivity]. }
  split; [apply Hg |]. rewrite !Hg. apply existsb_app.
Qed.

End Chars.

Lemma isdigit_basic_ok (c : Z) :
  is_latin c = true \/ mem c forbidden_special_chars = true ->
  Inputs.isdigit_basic c = false.
Proof.
  intros [H | H].
  - unfold is_latin, in_range in H.
    apply orb_true_iff in H as [H | H]; apply andb_true_iff in H as [H1 H2];
      apply Z.leb_le in H1; apply Z.leb_le in H2;
      unfold Inputs.isdigit_basic, in_range; decide_bounds; reflexivity.
  - unfold mem, forbidden_special_chars in H; cbn [existsb] in H.
    repeat (apply orb_true_iff in H as [H | H]; [apply Z.eqb_eq in H; subst c;
      reflexivity |]).
    discriminate.
Qed.

Lemma forbidden_chars_per_char_witness :
  _has_forbidden_chars Inputs.isdigit_basic [1087; 64]
  = existsb (fun c => negb (char_allowed Inputs.isdigit_basic c)) [1087; 64] /\
  _has_forbidden_chars Inputs.isdigit_basic ([1087; 64] ++ [104])
  = _has_forbidden_chars Inputs.isdigit_basic [1087; 64]
    || _has_forbidden_chars Inputs.isdigit_basic [104].
Proof.
  exact (forbidden_chars_per_char Inputs.isdigit_basic isdigit_basic_ok [1087; 64] [104]).
Defined.

Lemma ci_url_head_latin (k c : Z) :
  k = 104 \/ k = 119 \/ k = 116 -> ci_char k c = true -> is_latin c = true.
Proof.
  intros Hk H. unfold ci_char, in_range in H.
  destruct Hk as [-> | [-> | ->]]; cbn in H;
    repeat (apply orb_true_iff in H as [H | H]);
    try discriminate; apply Z.eqb_eq in H; subst c; reflexivity.
Qed.

Lemma url_search_latin (isspace isword : Z -> bool) (pw : bool) (t : text) :
  url_search isspace isword pw t = true -> existsb is_latin t = true.
Proof.
  revert pw; induction t as [| c s IH]; intros pw H.
  - cbn in H. unfold url_match_at in H. destruct pw; discriminate.
  - cbn [url_search] in H. apply orb_true_iff in H as [H | H].
    + unfold url_match_at in H. apply andb_true_iff in H as [_ H].
      apply existsb_exists in H as (p & Hp & Hm).
      cbn [existsb]. apply orb_true_iff; left.
      unfold url_prefixes in Hp.
      destruct Hp as [<- | [<- | [<- | [<- | [<- | []]]]]];
        cbn [match_prefix] in Hm;
        (destruct (ci_char _ c) eqn:E; [| discriminate]);
        (eapply ci_url_head_latin; [| exact E]); lia.
    + cbn [existsb]. rewrite (IH _ H). apply orb_true_r.
Qed.

(** X9: every match of [url_pattern] starts with a Latin letter (h, w or
    t, in either case), so a text in which the URL pattern finds a link
    is always rejected by [_has_forbidden_chars], whatever [str.isdigit]
    says. *)
Theorem url_match_forbidden (isdigit isspace isword : Z -> bool) (t : text) :
  url_search isspace isword false t = true -> _has_forbidden_chars isdigit t = true.
Proof.
  intros H. pose proof (url_search_latin isspace isword false t H) as L.
  unfold _has_forbidden_chars. destruct t; [discriminate |]. rewrite L; reflexivity.
Qed.

Lemma url_match_forbidden_witness :
  url_search Inputs.isspace_basic Inputs.isword_basic false
    (Inputs.of_ascii "see www.x.ru") = true /\
  _has_forbidden_chars Inputs.isdigit_basic (Inputs.of_ascii "see www.x.ru") = true.
Proof.
  split; [reflexivity |].
  apply (url_match_forbidden Inputs.isdigit_basic Inputs.isspace_basic
           Inputs.isword_basic); reflexivity.
Defined.

(** X10: when a message reaches the link check of [__call__] (its text or
    caption passed [_has_forbidden_chars]), [_has_urls] is decided by the
    URL and TEXT_LINK entities alone: the URL pattern never fires there. *)
Theorem has_urls_entities_only (isdigit isspace isword : Z -> bool) (m : message) :
  _has_forbidden_chars isdigit (text_or_caption m) = false ->
  _has_urls isspace isword m
  = existsb is_link_entity (entities m) || existsb is_link_entity (caption_entities m).
Proof.
  intros Hf. unfold _has_urls.
  destruct (existsb is_link_entity (entities m)); [reflexivity |].
  destruct (existsb is_link_entity (caption_entities m)); [reflexivity |].
  cbv zeta. destruct (text_or_caption m) as [| c r] eqn:E; [reflexivity |].
  destruct (url_search isspace isword false (c :: r)) eqn:U; [| reflexivity].
  apply url_search_latin in U. unfold _has_forbidden_chars in Hf.
  rewrite U in Hf; discriminate.
Qed.

Lemma has_urls_entities_only_witness :
  _has_forbidden_chars Inputs.isdigit_basic
    (text_or_caption (Inputs.text_msg 100 Inputs.privet)) = false /\
  _has_urls Inputs.isspace_basic Inputs.isword_basic (Inputs.text_msg 100 Inputs.privet)
  = existsb is_link_entity (entities (Inputs.text_msg 100 Inputs.privet))
    || existsb is_link_entity (caption_entities (Inputs.text_msg 100 Inputs.privet)).
Proof.
  split; [reflexivity |].
  apply (has_urls_entities_only Inputs.isdigit_basic); reflexivity.
Defined.

(** X11: the nine ranges of [_is_emoji] overlap and abut; together they
    are the four ranges U+2600..U+27BF, U+FE00..U+FE0F, U+1F1E6..U+1F1FF
    and U+1F300..U+1FAFF. *)
Theorem is_emoji_ranges (c : Z) :
  is_emoji c
  = in_range 9728 10175 c || in_range 65024 65039 c
    || in_range 127462 127487 c || in_range 127744 129791 c.
Proof.
  apply eq_true_iff_eq. unfold is_emoji, in_range.
  rewrite !orb_true_iff, !andb_true_iff, !Z.leb_le. lia.
Qed.

Lemma fold_max_spec (xs : list Q) (a : Q) :
  let r := fold_left (fun a b => if Qle_bool b a then a else b) xs a in
  (r = a \/ In r xs) /\ (a <= r)%Q /\ (forall y, In y xs -> (y <= r)%Q).
Proof.
  revert a; induction xs as [| x xs IH]; intros a; cbv zeta; simpl.
  - split; [left; reflexivity | split; [apply Qle_refl | intros y []]].
  - destruct (Qle_bool x a) eqn:E.
    + apply Qle_bool_iff in E.
      destruct (IH a) as (H1 & H2 & H3). split; [| split].
      * destruct H1 as [H1 | H1]; [left | right; right]; assumption.
      * exact H2.
      * intros y [<- | Hy]; [exact (Qle_trans _ _ _ E H2) | exact (H3 y Hy)].
    + assert (Hlt : (a <= x)%Q).
      { apply Qlt_le_weak, Qnot_le_lt; intro H; apply Qle_bool_iff in H; congruence. }
      destruct (IH x) as (H1 & H2 & H3). split; [| split].
      * right; destruct H1 as [H1 | H1]; [left; symmetry | right]; assumption.
      * exact (Qle_trans _ _ _ Hlt H2).
      * intros y [<- | Hy]; [exact H2 | exact (H3 y Hy)].
Qed.

(** X12: [max(predict_proba(text))] raises exactly on an empty list of
    scores; otherwise it is one of the scores and bounds all of them, so
    the test [max_proba >= PROFANITY_THRESHOLD] holds exactly when some
    score reaches the threshold. *)
Theorem py_max_threshold (l : list Q) (thr : Q) :
  (py_max l = None <-> l = []) /\
  forall mx, py_max l = Some mx ->
    In mx l /\ (forall y, In y l -> (y <= mx)%Q) /\
    (Qle_bool thr mx = true <-> exists y, In y l /\ (thr <= y)%Q).
Proof.
  split.
  - destruct l; simpl; split; intro H; congruence.
  - intros mx H. destruct l as [| x xs]; [discriminate |].
    simpl in H; injection H as <-.
    destruct (fold_max_spec xs x) as (H1 & H2 & H3).
    assert (Hin : In (fold_left (fun a b => if Qle_bool b a then a else b) xs x) (x :: xs)).
    { destruct H1 as [H1 | H1]; [left; symmetry | right]; assumption. }
    assert (Hub : forall y, In y (x :: xs) ->
                  (y <= fold_left (fun a b => if Qle_bool b a then a else b) xs x)%Q).
    { intros y [<- | Hy]; [exact H2 | exact (H3 y Hy)]. }
    split; [exact Hin |]. split; [exact Hub |].
    rewrite Qle_bool_iff. split.
    + intros Ht; eexists; split; [exact Hin | exact Ht].
    + intros (y & Hy & Ht). exact (Qle_trans _ _ _ Ht (Hub y Hy)).
Qed.

Lemma py_max_threshold_witness :
  (py_max [1 # 2; 9 # 10] = None <-> [1 # 2; 9 # 10] = []) /\
  py_max [1 # 2; 9 # 10] = Some (9 # 10) /\
  (In (9 # 10) [1 # 2; 9 # 10] /\
   (forall y, In y [1 # 2; 9 # 10] -> (y <= 9 # 10)%Q) /\
   (Qle_bool (7 # 10) (9 # 10) = true <->
    exists y, In y [1 # 2; 9 # 10] /\ (7 # 10 <= y)%Q)).
Proof.
  split; [apply (proj1 (py_max_threshold [1 # 2; 9 # 10] (7 # 10))) |].
  split; [reflexivity |].
  apply (proj2 (py_max_threshold [1 # 2; 9 # 10] (7 # 10))); reflexivity.
Defined.

Section Whole.
Import Claims.

(** X13: one run of [__call__] keeps the consistency of [Statistics]:
    the global counters equal the per-chat sums and [total_deleted] the sum
    of the three categories, whatever the message and the answers of the
    Telegram API. *)
Theorem call_keeps_stats_invariant (allowed admins : list Z) (thr : Q)
  (pp : text -> list Q) (dig sp wd : Z -> bool) (e : env) (m : message)
  (w : world) :
  stats_invariant (w_stats w) ->
  stats_invariant (w_stats (snd (call allowed admins thr pp dig sp wd e m w))).
Proof.
  destruct w as [st lg]; simpl; intros (H1 & H2 & H3 & H4).
  destruct e as [b ml tr dok bok].
  unfold call, privileged, moderate, voice_branch, text_branch, try_delete,
    try_ban, when, bind, ret, emit, stat.
  split_branches; repeat rewrite send_ban_notification_log; simpl;
    unfold stats_invariant, add_checked, add_deleted, add_banned; simpl;
    repeat split; repeat sum_step; lia.
Qed.

Lemma call_keeps_stats_invariant_witness :
  stats_invariant (w_stats Inputs.start_world) /\
  stats_invariant (w_stats (snd (call [100] [1] (7 # 10) (fun _ => [9 # 10])
    Inputs.isdigit_basic Inputs.isspace_basic Inputs.isword_basic Inputs.member_env
    (Inputs.text_msg 100 Inputs.privet) Inputs.start_world))).
Proof.
  split; [unfold stats_invariant; simpl; lia |].
  apply call_keeps_stats_invariant; unfold stats_invariant; simpl; lia.
Defined.

(** Every per-chat counter of [c'] is at least the one of [c]. *)
Definition chat_counters_le (c c' : chat_stats) : Prop :=
  (checked c <= checked c' /\ deleted c <= deleted c' /\
   cs_deleted_forbidden_chars c <= cs_deleted_forbidden_chars c' /\
   cs_deleted_urls c <= cs_deleted_urls c' /\
   cs_deleted_profanity c <= cs_deleted_profanity c' /\
   banned c <= banned c')%nat.

Lemma call_chat_counters_grow (allowed admins : list Z) (thr : Q)
  (pp : text -> list Q) (dig sp wd : Z -> bool) (e : env) (m : message)
  (w : world) (k : Z) :
  chat_counters_le (by_chat_get k (by_chat (w_stats w)))
    (by_chat_get k (by_chat (w_stats (snd (call allowed admins thr pp dig sp wd e m w))))).
Proof.
  destruct w as [st lg]; destruct e as [b ml tr dok bok].
  unfold call, privileged, moderate, voice_branch, text_branch, try_delete,
    try_ban, when, bind, ret, emit, stat.
  split_branches; repeat rewrite send_ban_notification_log; simpl;
    unfold add_checked, add_deleted, add_banned; simpl;
    repeat rewrite by_chat_get_update;
    repeat match goal with |- context [Z.eqb ?a ?b] => destruct (Z.eqb_spec a b) end;
    subst; unfold chat_counters_le; simpl; clear; lia.
Qed.

(** X14: one run of [__call__] records at most one checked message, and
    records a deletion or a ban only together with a checked message of
    the same run; no counter ever decreases: neither the totals, nor the
    three deletion categories, nor any of the six counters of any chat.
    Hence [total_deleted] and [total_banned] never exceed [total_checked]
    from a reset on. *)
Theorem call_counter_steps (allowed admins : list Z) (thr : Q)
  (pp : text -> list Q) (dig sp wd : Z -> bool) (e : env) (m : message)
  (w : world) :
  let st := w_stats w in
  let st' := w_stats (snd (call allowed admins thr pp dig sp wd e m w)) in
  (total_checked st <= total_checked st' <= S (total_checked st) /\
   total_deleted st <= total_deleted st' /\
   total_banned st <= total_banned st' /\
   total_deleted st' + total_checked st <= total_deleted st + total_checked st' /\
   total_banned st' + total_checked st <= total_banned st + total_checked st' /\
   deleted_forbidden_chars st <= deleted_forbidden_chars st' /\
   deleted_urls st <= deleted_urls st' /\
   deleted_profanity st <= deleted_profanity st')%nat /\
  (forall k, chat_counters_le (by_chat_get k (by_chat st)) (by_chat_get k (by_chat st'))).
Proof.
  cbv zeta. split; [| intros k; apply call_chat_counters_grow].
  destruct w as [st lg]; destruct e as [b ml tr dok bok].
  unfold call, privileged, moderate, voice_branch, text_branch, try_delete,
    try_ban, when, bind, ret, emit, stat.
  split_branches; repeat rewrite send_ban_notification_log; simpl;
    unfold add_checked, add_deleted, add_banned; simpl; clear; lia.
Qed.

(** X15: in the text path the ban does not depend on the deletion: when a
    message scoring at least the threshold cannot be deleted, its author is
    still banned, the ban is counted and every admin is notified, while no
    deletion is counted. *)
Theorem ban_despite_failed_delete (allowed admins : list Z) (thr : Q)
  (pp : text -> list Q) (dig sp wd : Z -> bool) (e : env) (m : message)
  (w : world) (mx : Q) :
  chat_kind m <> PRIVATE -> mem (chat_id m) allowed = true ->
  privileged e m = false -> voice m = None ->
  truthy (msg_text m) || truthy (caption m) = true ->
  _has_forbidden_chars dig (text_or_caption m) = false ->
  _has_urls sp wd m = false ->
  py_max (pp (text_or_caption m)) = Some mx -> Qle_bool thr mx = true ->
  delete_ok e = false -> bot e = true -> sender_truthy m = true -> ban_ok e = true ->
  call allowed admins thr pp dig sp wd e m w
  = (Dropped,
     mk_world (add_banned (chat_id m) (add_checked (chat_id m) (w_stats w)))
       (w_log w ++ [DeleteMessage (chat_id m); BanChatMember (chat_id m) (sender_or_zero m)]
        ++ map NotifyAdmin admins)).
Proof.
  intros Hk Ha Hp Hv Ht Hf Hu Hm Hq Hd Hb Hs Hbn.
  rewrite call_moderated by assumption.
  destruct w as [st lg]; destruct e as [b ml tr dok bok]; simpl in Hd, Hb, Hbn; subst.
  unfold moderate, voice_branch, bind; rewrite Hv; unfold ret; rewrite Ht.
  unfold text_branch; rewrite Hf, Hu.
  unfold bind, stat; simpl; rewrite Hm, Hq.
  unfold try_delete, try_ban, when, bind, emit, ret; simpl; rewrite Hs; simpl.
  rewrite send_ban_notification_log; simpl.
  rewrite <- !app_assoc; reflexivity.
Qed.

Lemma ban_despite_failed_delete_witness :
  call [100] [1] (7 # 10) (fun _ => [9 # 10]) Inputs.isdigit_basic
    Inputs.isspace_basic Inputs.isword_basic (mk_env true (Some MEMBER) None false true)
    (Inputs.text_msg 100 Inputs.privet) Inputs.start_world
  = (Dropped,
     mk_world (add_banned 100 (add_checked 100 (w_stats Inputs.start_world)))
       (w_log Inputs.start_world ++ [DeleteMessage 100; BanChatMember 100 55]
        ++ map NotifyAdmin [1])).
Proof.
  exact (ban_despite_failed_delete [100] [1] (7 # 10) (fun _ => [9 # 10])
           Inputs.isdigit_basic Inputs.isspace_basic Inputs.isword_basic
           (mk_env true (Some MEMBER) None false true) (Inputs.text_msg 100 Inputs.privet)
           Inputs.start_world (9 # 10) ltac:(discriminate) eq_refl eq_refl eq_refl eq_refl
           eq_refl eq_refl eq_refl eq_refl eq_refl eq_refl eq_refl eq_refl).
Defined.

(** X16: the enforcement calls issued by one run of [__call__]
    ([event.delete], [bot.ban_chat_member] and the admin notifications of
    [_send_ban_notification]; the lookups [get_chat_member], [get_file] and
    [download_file] are not counted) are one of: none; the deletion of the
    message in its own chat; or that deletion followed by the ban of the
    message's sender (a present, non-zero [from_user.id]) in the same chat,
    then one notification per admin of [ADMIN_IDS] when the ban succeeded.
    The middleware never bans before trying to delete, nor acts on another
    chat or user. *)
Theorem call_log_shape (allowed admins : list Z) (thr : Q)
  (pp : text -> list Q) (dig sp wd : Z -> bool) (e : env) (m : message)
  (w : world) :
  exists l,
    w_log (snd (call allowed admins thr pp dig sp wd e m w)) = w_log w ++ l /\
    (l = [] \/ l = [DeleteMessage (chat_id m)] \/
     (sender_truthy m = true /\
      (l = [DeleteMessage (chat_id m); BanChatMember (chat_id m) (sender_or_zero m)] \/
       l = [DeleteMessage (chat_id m); BanChatMember (chat_id m) (sender_or_zero m)]
           ++ map NotifyAdmin admins))).
Proof.
  destruct w as [st lg]; destruct e as [b ml tr dok bok].
  unfold call, privileged, moderate, voice_branch, text_branch, try_delete,
    try_ban, when, bind, ret, emit, stat.
  split_branches; repeat rewrite send_ban_notification_log; simpl;
    repeat rewrite <- app_assoc; simpl;
    first
      [ exists []; rewrite app_nil_r; split; [reflexivity | left; reflexivity]
      | eexists; split; [reflexivity |];
        first
          [ right; left; reflexivity
          | right; right; split;
            [ repeat match goal with
                     | H : _ && _ = true |- _ => apply andb_prop in H as [? ?]
                     end; assumption
            | first [left; reflexivity | right; reflexivity] ] ] ].
Qed.

(** X17: a run of [__call__] that does not drop the message (passed on to
    the next handler, or an exception out of [predict_proba] or [max])
    issues no enforcement call (no [event.delete], no
    [bot.ban_chat_member], no admin notification; lookups such as
    [get_chat_member] and [get_file] are not counted), and changes the
    statistics at most by one checked message in the message's chat. *)
Theorem not_dropped_no_effect (allowed admins : list Z) (thr : Q)
  (pp : text -> list Q) (dig sp wd : Z -> bool) (e : env) (m : message)
  (w : world) :
  fst (call allowed admins thr pp dig sp wd e m w) <> Dropped ->
  let w' := snd (call allowed admins thr pp dig sp wd e m w) in
  w_log w' = w_log w /\
  (w_stats w' = w_stats w \/ w_stats w' = add_checked (chat_id m) (w_stats w)).
Proof.
  destruct w as [st lg]; destruct e as [b ml tr dok bok].
  unfold call, privileged, moderate, voice_branch, text_branch, try_delete,
    try_ban, when, bind, ret, emit, stat.
  split_branches; repeat rewrite send_ban_notification_log; simpl;
    intros Ho; try (exfalso; apply Ho; reflexivity);
    split; first [reflexivity | left; reflexivity | right; reflexivity].
Qed.

Lemma not_dropped_no_effect_witness :
  fst (call [100] [1] (7 # 10) (fun _ => [1 # 10]) Inputs.isdigit_basic
        Inputs.isspace_basic Inputs.isword_basic Inputs.member_env
        (Inputs.text_msg 100 Inputs.privet) Inputs.start_world) <> Dropped /\
  (let w' := snd (call [100] [1] (7 # 10) (fun _ => [1 # 10]) Inputs.isdigit_basic
        Inputs.isspace_basic Inputs.isword_basic Inputs.member_env
        (Inputs.text_msg 100 Inputs.privet) Inputs.start_world) in
   w_log w' = w_log Inputs.start_world /\
   (w_stats w' = w_stats Inputs.start_world \/
    w_stats w' = add_checked 100 (w_stats Inputs.start_world))).
Proof.
  split; [vm_compute; discriminate |].
  apply not_dropped_no_effect. vm_compute. discriminate.
Defined.


End Whole.

Section Voice.
Import Claims Transcribe.

(** X19: with the instance [__init__] builds (no [recognizer] attribute),
    a voice message with no text and no caption in an allowed group chat is
    never deleted, counted or punished: either [_transcribe_voice] raises
    [AttributeError] out of [__call__], or (speech recognition not
    installed, bot unset, privileged sender) the update is passed on; the
    world is left untouched in every case. *)
Theorem bare_voice_never_moderated (allowed admins : list Z) (thr : Q)
  (pp : text -> list Q) (dig sp wd : Z -> bool) (sr_available : bool)
  (recognized : option text) (e : env) (m : message) (w : world)
  (file_id : string) :
  chat_kind m <> PRIVATE -> mem (chat_id m) allowed = true ->
  voice m = Some file_id ->
  truthy (msg_text m) = false -> truthy (caption m) = false ->
  let r := call_transcribing allowed admins thr pp dig sp wd sr_available
             init_instance recognized e m w in
  snd r = w /\ (fst r = Passed \/ fst r = Raised).
Proof.
  intros Hk Ha Hv Ht Hc. cbv zeta. unfold call_transcribing.
  destruct (reaches_transcription allowed e m) eqn:R.
  - unfold _transcribe_voice; destruct sr_available; cbn [negb init_instance recognizer].
    + split; [reflexivity | right; reflexivity].
    + rewrite (call_no_text_passed allowed admins thr pp dig sp wd
                 (with_transcription e None) m w); [split; [reflexivity | left; reflexivity] | | assumption..].
      unfold voice_branch; rewrite Hv; cbn [with_transcription transcription bot].
      destruct (bot e); reflexivity.
  - destruct (privileged e m) eqn:P.
    + unfold call. destruct (chat_kind m); [congruence | | |];
        rewrite Ha, P; split; (reflexivity || (left; reflexivity)).
    + assert (Hb : bot e = false).
      { unfold reaches_transcription in R; rewrite Ha, P, Hv in R.
        destruct (chat_kind m); [congruence | | |]; exact R. }
      rewrite (call_no_text_passed allowed admins thr pp dig sp wd e m w);
        [split; [reflexivity | left; reflexivity] | | assumption..].
      unfold voice_branch; rewrite Hv, Hb; reflexivity.
Qed.

Lemma bare_voice_never_moderated_witness :
  let m := mk_message 100 SUPERGROUP (Some (mk_user 55 None None)) None None None
             [] [] (Some "f1"%string) in
  let r := call_transcribing [100] [1] (7 # 10) (fun _ => [9 # 10])
             Inputs.isdigit_basic Inputs.isspace_basic Inputs.isword_basic true
             init_instance (Some Inputs.privet) Inputs.member_env m Inputs.start_world in
  snd r = Inputs.start_world /\ (fst r = Passed \/ fst r = Raised).
Proof.
  apply (bare_voice_never_moderated [100] [1] (7 # 10) (fun _ => [9 # 10])
           Inputs.isdigit_basic Inputs.isspace_basic Inputs.isword_basic true
           (Some Inputs.privet) Inputs.member_env
           (mk_message 100 SUPERGROUP (Some (mk_user 55 None None)) None None None
              [] [] (Some "f1"%string)) Inputs.start_world "f1"%string);
    (discriminate || reflexivity).
Defined.

End Voice.


End Extras.
